(** * Quantum circuit simulator: the session handlers of [app.py]

    A shallow embedding of the four request handlers of
    [src/quantum-circuit-simulator/app.py] ([reset_circuit], [load_example],
    [add_gate], [simulate_circuit]) over the module-level dictionary
    [circuit_state], and the properties of the specification that concern
    them.

    The handlers are Python functions that mutate one shared dictionary and
    raise exceptions.  They are embedded in a state-and-exception monad in
    which a raised exception keeps every mutation made before it, as Python
    does.  Each handler body contains no [await], so one call runs from start
    to end without interleaving; a call is one run of the monad.

    Everything the handlers obtain from qiskit, qiskit-aer, matplotlib and
    starlette is behind the interface [Qiskit]: the handlers are written, and
    the general theorems proved, for every implementation of it.  *)

From Stdlib Require Import ZArith List String Bool Lia DecimalString.
Import ListNotations.

Open Scope string_scope.
Open Scope list_scope.
Open Scope Z_scope.

(** ** Python values and exceptions *)

(** The values the handlers store in gate tuples and pass as qubit
    arguments: an [int], a [str], a list of [int] (also what [range(n)]
    enumerates), or [None]. *)
Inductive pyval : Type :=
| PInt (z : Z)
| PStr (s : string)
| PList (l : list Z)
| PNone.

(** [fastapi.HTTPException(status_code=..., detail=...)], the only exception
    the source raises itself, and every other exception (raised by a library
    call), of which only the text matters. *)
Inductive Exc : Type :=
| HTTPException (status_code : Z) (detail : string)
| LibraryError (message : string).

(** The result of running Python code: a value or a raised exception. *)
Inductive outcome (A : Type) : Type :=
| Ret (a : A)
| Raise (e : Exc).
Arguments Ret {A} a.
Arguments Raise {A} e.

(** [range(n)]: 0, 1, ..., n-1; empty when [n <= 0]. *)
Definition py_range (n : Z) : list Z :=
  map Z.of_nat (seq 0 (Z.to_nat n)).

(** An optional request field as a Python value. *)
Definition of_field (o : option Z) : pyval :=
  match o with
  | Some z => PInt z
  | None => PNone
  end.

(** [x in xs] on strings. *)
Definition str_in (x : string) (xs : list string) : bool :=
  existsb (String.eqb x) xs.

(** [a == b] on optional integers. *)
Definition field_eqb (a b : option Z) : bool :=
  match a, b with
  | Some x, Some y => x =? y
  | None, None => true
  | _, _ => false
  end.

(** [q is None or not (0 <= q < n)]. *)
Definition missing_or_out_of_range (q : option Z) (n : Z) : bool :=
  match q with
  | None => true
  | Some t => negb ((0 <=? t) && (t <? n))
  end.

(** ** The request and response models *)

Module GateRequest.
(** [class GateRequest(BaseModel)]. *)
Record t : Type := Build {
  gate_type : string;
  target_qubit : option Z;
  control_qubit : option Z;
  qubits : Z
}.
End GateRequest.

(** A tuple of the [gates] list: its first component [g[0]] and the rest. *)
Definition gate : Type := (string * list pyval)%type.

Module Response.
(** [{"gates": ..., "circuit_image": ...}], returned by [reset_circuit],
    [load_example] and [add_gate]. *)
Record t : Type := Build {
  gates : list gate;
  circuit_image : option string
}.
End Response.

Module SimulateResponse.
(** [{"circuit_image": ..., "histogram_image": ...}], returned by
    [simulate_circuit]. *)
Record t : Type := Build {
  circuit_image : string;
  histogram_image : string
}.
End SimulateResponse.

(** ** The handler monad *)

(** A handler step over a store [S]: a result or an exception, and the store
    as the step left it.  A raise does not roll the store back. *)
Definition M (S A : Type) : Type := S -> outcome A * S.

Definition ret {S A} (a : A) : M S A := fun st => (Ret a, st).

Definition raise {S A} (e : Exc) : M S A := fun st => (Raise e, st).

Definition bind {S A B} (m : M S A) (k : A -> M S B) : M S B :=
  fun st =>
    match m st with
    | (Ret a, st') => k a st'
    | (Raise e, st') => (Raise e, st')
    end.

(** [try: body / except Exception as e: handler(e)]. *)
Definition try_except {S A} (body : M S A) (handler : Exc -> M S A) : M S A :=
  fun st =>
    match body st with
    | (Ret a, st') => (Ret a, st')
    | (Raise e, st') => handler e st'
    end.

(** A call that does not touch the store. *)
Definition call {S A} (r : outcome A) : M S A := fun st => (r, st).

(** Reading the store. *)
Definition get {S} : M S S := fun st => (Ret st, st).

(** [if cond: body]. *)
Definition when {S} (cond : bool) (body : M S unit) : M S unit :=
  if cond then body else ret tt.

Declare Scope py_scope.
Delimit Scope py_scope with py.
Notation "x <- m ;; k" := (bind m (fun x => k))
  (at level 61, m at next level, right associativity) : py_scope.
Notation "m ;; k" := (bind m (fun _ => k))
  (at level 61, right associativity) : py_scope.

(** ** The library interface *)

(** An object handed to a library function: a circuit, a counts dictionary,
    or [None]. *)
Inductive pyobj (C K : Type) : Type :=
| OCircuit (c : C)
| OCounts (k : K)
| ONone.
Arguments OCircuit {C K} c.
Arguments OCounts {C K} k.
Arguments ONone {C K}.

(** What the handlers call in qiskit, qiskit-aer, matplotlib and starlette.
    A method that mutates its circuit in place returns the circuit after the
    call; every call may raise. *)
Class Qiskit : Type := {
  (** a [QuantumCircuit] object *)
  QCirc : Type;
  (** a [GroverOperator] object *)
  Oper : Type;
  (** the dictionary [result.get_counts(circuit)] returns *)
  Counts : Type;
  (** [str(e)] *)
  str_exc : Exc -> string;
  (** [QuantumCircuit(n)] and [QuantumCircuit(n, m)] *)
  QuantumCircuit : Z -> option Z -> outcome QCirc;
  (** [circuit.h(q)], [circuit.x(q)] *)
  qc_h : QCirc -> pyval -> outcome QCirc;
  qc_x : QCirc -> pyval -> outcome QCirc;
  (** [circuit.cx(c, t)], [circuit.cz(c, t)] *)
  qc_cx : QCirc -> pyval -> pyval -> outcome QCirc;
  qc_cz : QCirc -> pyval -> pyval -> outcome QCirc;
  (** [circuit.measure(qs, cs)] *)
  qc_measure : QCirc -> pyval -> pyval -> outcome QCirc;
  (** [GroverOperator(oracle)] and [circuit.append(op, qs)] *)
  GroverOperator : QCirc -> outcome Oper;
  qc_append : QCirc -> Oper -> pyval -> outcome QCirc;
  (** [simulator = AerSimulator()],
      [result = simulator.run(circuit, shots=shots).result()],
      [result.get_counts(circuit)] *)
  aer_get_counts : pyobj QCirc Counts -> Z -> outcome Counts;
  (** [plt.figure(); x.draw(output='mpl')] and
      [plt.figure(); plot_histogram(x).figure], each followed by
      [plt.savefig], [plt.close] and the base64 encoding of the buffer *)
  draw_png : pyobj QCirc Counts -> outcome string;
  histogram_png : pyobj QCirc Counts -> outcome string
}.

(** ** The session dictionary *)

Section Handlers.

Context {lib : Qiskit}.

Local Open Scope py_scope.

(** [circuit_state = {"circuit": ..., "gates": [...], "qubits": ...}]. *)
Record circuit_state : Type := Build_state {
  circuit : option QCirc;
  gates : list gate;
  qubits : Z
}.

(** The dictionary at import time:
    [{"circuit": None, "gates": [], "qubits": 2}]. *)
Definition initial_state : circuit_state :=
  {| circuit := None; gates := []; qubits := 2 |}.

(** [circuit_state["qubits"] = n]. *)
Definition set_qubits (n : Z) : M circuit_state unit :=
  fun st => (Ret tt, {| circuit := circuit st; gates := gates st; qubits := n |}).

(** [circuit_state["circuit"] = c]. *)
Definition set_circuit (c : QCirc) : M circuit_state unit :=
  fun st => (Ret tt, {| circuit := Some c; gates := gates st; qubits := qubits st |}).

(** [circuit_state["gates"] = gs]. *)
Definition set_gates (gs : list gate) : M circuit_state unit :=
  fun st => (Ret tt, {| circuit := circuit st; gates := gs; qubits := qubits st |}).

(** [circuit_state["gates"].append(g)]. *)
Definition gates_append (g : gate) : M circuit_state unit :=
  fun st => (Ret tt, {| circuit := circuit st; gates := gates st ++ [g]; qubits := qubits st |}).

(** [circuit_state["circuit"].method(...)]: the stored object is mutated in
    place; on [None] the attribute lookup raises. *)
Definition on_circuit (method : QCirc -> outcome QCirc) : M circuit_state unit :=
  fun st =>
    match circuit st with
    | None => (Raise (LibraryError "'NoneType' object has no attribute"), st)
    | Some c =>
        match method c with
        | Ret c' => (Ret tt, {| circuit := Some c'; gates := gates st; qubits := qubits st |})
        | Raise e => (Raise e, st)
        end
    end.

(** The value of [circuit_state["circuit"]] as a library argument. *)
Definition circuit_obj (st : circuit_state) : pyobj QCirc Counts :=
  match circuit st with
  | Some c => OCircuit c
  | None => ONone
  end.

(** [HTTPException(status_code=500, detail=f"{prefix}{str(e)}")]. *)
Definition http500 (prefix : string) (e : Exc) : Exc :=
  HTTPException 500 (prefix ++ str_exc e)%string.

(** [except Exception as e: raise HTTPException(status_code=500,
    detail=f"{prefix}{str(e)}")], the clause that closes every handler (the
    [logger.error] line before it has no effect on the session). *)
Definition reraise_500 {A} (prefix : string) (e : Exc) : M circuit_state A :=
  raise (http500 prefix e).

(** ** [circuit_to_base64] (lines 34-51) *)

Definition circuit_to_base64 (circuit : pyobj QCirc Counts) (is_histogram : bool)
  : outcome string :=
  match (if is_histogram then histogram_png circuit else draw_png circuit) with
  | Ret img_data => Ret img_data
  | Raise e => Raise (http500 "Failed to generate image: " e)
  end.

(** ** [reset_circuit] (lines 62-74) *)

Definition reset_circuit_body (qubits : Z) : M circuit_state Response.t :=
  when (negb ((1 <=? qubits) && (qubits <=? 5)))
    (raise (HTTPException 400 "Qubits must be between 1 and 5")) ;;
  set_qubits qubits ;;
  c <- call (QuantumCircuit qubits (Some qubits)) ;;
  set_circuit c ;;
  set_gates [] ;;
  st <- get ;;
  ret {| Response.gates := gates st; Response.circuit_image := None |}.

Definition reset_circuit (qubits : Z) : M circuit_state Response.t :=
  try_except (reset_circuit_body qubits)
    (reraise_500 "Failed to reset circuit: ").

(** ** [load_example] (lines 76-108) *)

Definition load_example_body (example : string) (qubits : Z)
  : M circuit_state Response.t :=
  when (negb ((1 <=? qubits) && (qubits <=? 5)))
    (raise (HTTPException 400 "Qubits must be between 1 and 5")) ;;
  set_qubits qubits ;;
  c <- call (QuantumCircuit qubits (Some qubits)) ;;
  set_circuit c ;;
  set_gates [] ;;
  (if (example =? "Bell State (Entanglement)")%string then
     when (qubits <? 2)
       (raise (HTTPException 400 "Bell State requires at least 2 qubits")) ;;
     on_circuit (fun c => qc_h c (PInt 0)) ;;
     on_circuit (fun c => qc_cx c (PInt 0) (PInt 1)) ;;
     set_gates [("H", [PInt 0]); ("CX", [PInt 0; PInt 1])]
   else if (example =? "Grover's Algorithm (2-Qubit Search)")%string then
     when (negb (qubits =? 2))
       (raise (HTTPException 400 "Grover's example requires exactly 2 qubits")) ;;
     oracle <- call (QuantumCircuit 2 None) ;;
     oracle <- call (qc_cz oracle (PInt 0) (PInt 1)) ;;
     grover_op <- call (GroverOperator oracle) ;;
     on_circuit (fun c => qc_h c (PList [0; 1])) ;;
     on_circuit (fun c => qc_append c grover_op (PList [0; 1])) ;;
     set_gates [("H", [PList [0; 1]]); ("Grover Operator", [PList [0; 1]])]
   else
     raise (HTTPException 400 "Invalid example")) ;;
  st <- get ;;
  circuit_image <- call (circuit_to_base64 (circuit_obj st) false) ;;
  st <- get ;;
  ret {| Response.gates := gates st; Response.circuit_image := Some circuit_image |}.

Definition load_example (example : string) (qubits : Z)
  : M circuit_state Response.t :=
  try_except (load_example_body example qubits)
    (reraise_500 "Failed to load example: ").

(** ** [add_gate] (lines 110-152) *)

(** The list of line 119. *)
Definition supported_gate_types : list string :=
  ["H (Hadamard)"; "X (Pauli-X)"; "CX (CNOT)"; "CZ (Controlled-Z)"; "Measure"].

(** Lines 114-117: a missing circuit, or a stored qubit count that differs
    from the request's, replaces the stored circuit. *)
Definition needs_new_circuit (st : circuit_state) (request : GateRequest.t) : bool :=
  match circuit st with None => true | Some _ => false end
  || negb (qubits st =? GateRequest.qubits request).

Definition add_gate_body (request : GateRequest.t) : M circuit_state Response.t :=
  let gate_type := GateRequest.gate_type request in
  let target_qubit := GateRequest.target_qubit request in
  let control_qubit := GateRequest.control_qubit request in
  let n := GateRequest.qubits request in
  st <- get ;;
  when (needs_new_circuit st request)
    (set_qubits n ;;
     c <- call (QuantumCircuit n (Some n)) ;;
     set_circuit c ;;
     set_gates []) ;;
  when (negb (str_in gate_type supported_gate_types))
    (raise (HTTPException 400 "Invalid gate type")) ;;
  when (negb (gate_type =? "Measure")%string)
    (when (missing_or_out_of_range target_qubit n)
       (raise (HTTPException 400 "Invalid target qubit")) ;;
     when (str_in gate_type ["CX (CNOT)"; "CZ (Controlled-Z)"])
       (when (missing_or_out_of_range control_qubit n)
          (raise (HTTPException 400 "Invalid control qubit")) ;;
        when (field_eqb control_qubit target_qubit)
          (raise (HTTPException 400 "Control and target qubits must be different")))) ;;
  (if (gate_type =? "H (Hadamard)")%string then
     on_circuit (fun c => qc_h c (of_field target_qubit)) ;;
     gates_append ("H", [of_field target_qubit])
   else if (gate_type =? "X (Pauli-X)")%string then
     on_circuit (fun c => qc_x c (of_field target_qubit)) ;;
     gates_append ("X", [of_field target_qubit])
   else if (gate_type =? "CX (CNOT)")%string then
     on_circuit (fun c => qc_cx c (of_field control_qubit) (of_field target_qubit)) ;;
     gates_append ("CX", [of_field control_qubit; of_field target_qubit])
   else if (gate_type =? "CZ (Controlled-Z)")%string then
     on_circuit (fun c => qc_cz c (of_field control_qubit) (of_field target_qubit)) ;;
     gates_append ("CZ", [of_field control_qubit; of_field target_qubit])
   else if (gate_type =? "Measure")%string then
     on_circuit (fun c => qc_measure c (PList (py_range n)) (PList (py_range n))) ;;
     gates_append ("Measure", [PStr "All"])
   else
     ret tt) ;;
  st <- get ;;
  circuit_image <- call (circuit_to_base64 (circuit_obj st) false) ;;
  st <- get ;;
  ret {| Response.gates := gates st; Response.circuit_image := Some circuit_image |}.

Definition add_gate (request : GateRequest.t) : M circuit_state Response.t :=
  try_except (add_gate_body request)
    (reraise_500 "Failed to add gate: ").

(** ** [simulate_circuit] (lines 154-178) *)

(** ["Measure" in [g[0] for g in gs]]. *)
Definition has_measure (gs : list gate) : bool :=
  str_in "Measure" (map fst gs).

(** Lines 162-165: add the measurement if not present. *)
Definition add_measurement_if_absent : M circuit_state unit :=
  st <- get ;;
  when (negb (has_measure (gates st)))
    (on_circuit (fun c =>
       qc_measure c (PList (py_range (qubits st))) (PList (py_range (qubits st)))) ;;
     gates_append ("Measure", [PStr "All"])).

(** Lines 167-175: run the simulator and render both images. *)
Definition run_and_render (shots : Z) : M circuit_state SimulateResponse.t :=
  st <- get ;;
  counts <- call (aer_get_counts (circuit_obj st) shots) ;;
  circuit_image <- call (circuit_to_base64 (circuit_obj st) false) ;;
  histogram_image <- call (circuit_to_base64 (OCounts counts) true) ;;
  ret {| SimulateResponse.circuit_image := circuit_image;
         SimulateResponse.histogram_image := histogram_image |}.

Definition simulate_circuit_body (shots : Z) : M circuit_state SimulateResponse.t :=
  when (negb ((100 <=? shots) && (shots <=? 10000)))
    (raise (HTTPException 400 "Shots must be between 100 and 10000")) ;;
  st <- get ;;
  when (match circuit st with None => true | Some _ => false end)
    (raise (HTTPException 400 "No circuit defined")) ;;
  add_measurement_if_absent ;;
  run_and_render shots.

Definition simulate_circuit (shots : Z) : M circuit_state SimulateResponse.t :=
  try_except (simulate_circuit_body shots)
    (reraise_500 "Failed to simulate circuit: ").

End Handlers.

(** ** A reference implementation of the interface

    Used to run the handlers on concrete requests.  A circuit is the sizes it
    was built with and the log of the method calls applied to it; building a
    register of negative size raises, as qiskit's registers do; every other
    call succeeds.  Counts are kept symbolic (the circuit that was run and the
    number of shots), images are placeholders, and [str] of an
    [HTTPException] is starlette's ["{status_code}: {detail}"]. *)

Module Reference.

Record circ : Type := Build_circ {
  num_qubits : Z;
  num_clbits : Z;
  data : list (string * list pyval)
}.

Definition new_circuit (n : Z) (m : option Z) : outcome circ :=
  let k := match m with Some k => k | None => 0 end in
  if (n <? 0) || (k <? 0)
  then Raise (LibraryError "Register size must be non-negative")
  else Ret {| num_qubits := n; num_clbits := k; data := [] |}.

Definition apply (name : string) (args : list pyval) (c : circ) : outcome circ :=
  Ret {| num_qubits := num_qubits c;
         num_clbits := num_clbits c;
         data := data c ++ [(name, args)] |}.

Definition run (x : pyobj circ (circ * Z)) (shots : Z) : outcome (circ * Z) :=
  match x with
  | OCircuit c => Ret (c, shots)
  | _ => Raise (LibraryError "not a circuit")
  end.

Definition draw (x : pyobj circ (circ * Z)) : outcome string :=
  match x with
  | OCircuit _ => Ret "PNG(circuit)"
  | _ => Raise (LibraryError "object has no attribute 'draw'")
  end.

Definition plot_histogram (x : pyobj circ (circ * Z)) : outcome string :=
  match x with
  | OCounts _ => Ret "PNG(histogram)"
  | _ => Raise (LibraryError "not a counts dictionary")
  end.

Definition str (e : Exc) : string :=
  match e with
  | HTTPException status_code detail =>
      (NilZero.string_of_int (Z.to_int status_code) ++ ": " ++ detail)%string
  | LibraryError message => message
  end.

#[export] Instance lib : Qiskit := {|
  QCirc := circ;
  Oper := circ;
  Counts := (circ * Z)%type;
  str_exc := str;
  QuantumCircuit := new_circuit;
  qc_h := fun c q => apply "h" [q] c;
  qc_x := fun c q => apply "x" [q] c;
  qc_cx := fun c a b => apply "cx" [a; b] c;
  qc_cz := fun c a b => apply "cz" [a; b] c;
  qc_measure := fun c qs cs => apply "measure" [qs; cs] c;
  GroverOperator := fun oracle => Ret oracle;
  qc_append := fun c op qs => apply "append" [PStr "GroverOperator"; qs] c;
  aer_get_counts := run;
  draw_png := draw;
  histogram_png := plot_histogram
|}.

End Reference.

(** ** The gate library and the checks of the specification *)

Module GateKind.
(** The supported kinds of GateOp (specification, section 4.1). *)
Inductive t : Type := H | X | CX | CZ | Measure.
End GateKind.

(** The kind a request's [gate_type] label names, if any. *)
Definition kind_of (gate_type : string) : option GateKind.t :=
  if (gate_type =? "H (Hadamard)")%string then Some GateKind.H
  else if (gate_type =? "X (Pauli-X)")%string then Some GateKind.X
  else if (gate_type =? "CX (CNOT)")%string then Some GateKind.CX
  else if (gate_type =? "CZ (Controlled-Z)")%string then Some GateKind.CZ
  else if (gate_type =? "Measure")%string then Some GateKind.Measure
  else None.

(** A qubit index that is present and within [[0, n)]. *)
Definition index_ok (q : option Z) (n : Z) : bool :=
  match q with
  | Some i => (0 <=? i) && (i <? n)
  | None => false
  end.

(** An invalid gate request, in the specification's words: an unsupported
    kind; a target that is missing or out of [[0, n)] for a gate that has a
    target; for CX and CZ also a control that is missing, out of [[0, n)], or
    equal to the target. *)
Definition invalid_gate_request (request : GateRequest.t) : bool :=
  let n := GateRequest.qubits request in
  let target := GateRequest.target_qubit request in
  let control := GateRequest.control_qubit request in
  match kind_of (GateRequest.gate_type request) with
  | None => true
  | Some GateKind.Measure => false
  | Some GateKind.H | Some GateKind.X => negb (index_ok target n)
  | Some GateKind.CX | Some GateKind.CZ =>
      negb (index_ok target n) || negb (index_ok control n)
      || field_eqb control target
  end.

(** The details of the errors [add_gate] raises for an invalid gate. *)
Definition invalid_gate_details : list string :=
  ["Invalid gate type"; "Invalid target qubit"; "Invalid control qubit";
   "Control and target qubits must be different"].

(** The tuple both [add_gate] and [simulate_circuit] append for a
    measurement: [("Measure", "All")]. *)
Definition measure_all : gate := ("Measure", [PStr "All"]).

(** The number of Measure tuples in a gate list. *)
Definition measure_count (gs : list gate) : nat :=
  List.length (filter (fun g => (fst g =? "Measure")%string) gs).

Section Sessions.

Context {lib : Qiskit}.

(** The dictionary after a series of [simulate_circuit] calls, one per
    element of [shots], whatever each call returned. *)
Fixpoint simulate_repeatedly (shots : list Z) (st : circuit_state) : circuit_state :=
  match shots with
  | [] => st
  | s :: rest => simulate_repeatedly rest (snd (simulate_circuit s st))
  end.

End Sessions.

(** ** Concrete requests and states (reference implementation) *)

Module Examples.

Import Reference.

(** A valid Hadamard on qubit 0 of a 2-qubit register. *)
Definition h0_on_2 : GateRequest.t :=
  GateRequest.Build "H (Hadamard)" (Some 0) None 2.

(** The session after [add_gate(h0_on_2)] on the initial dictionary. *)
Definition one_h : circuit_state :=
  {| circuit := Some {| num_qubits := 2; num_clbits := 2; data := [("h", [PInt 0])] |};
     gates := [("H", [PInt 0])];
     qubits := 2 |}.

(** The session after [reset_circuit(2)]. *)
Definition fresh2 : circuit_state :=
  {| circuit := Some {| num_qubits := 2; num_clbits := 2; data := [] |};
     gates := [];
     qubits := 2 |}.

(** The session after [simulate_circuit(100)] on [one_h]. *)
Definition one_h_measured : circuit_state :=
  {| circuit :=
       Some {| num_qubits := 2; num_clbits := 2;
               data := [("h", [PInt 0]); ("measure", [PList [0; 1]; PList [0; 1]])] |};
     gates := [("H", [PInt 0]); ("Measure", [PStr "All"])];
     qubits := 2 |}.

(** A Hadamard whose target 5 is outside a 3-qubit register. *)
Definition h5_on_3 : GateRequest.t :=
  GateRequest.Build "H (Hadamard)" (Some 5) None 3.

(** A Hadamard whose target 2 is outside the stored 2-qubit register. *)
Definition h2_on_2 : GateRequest.t :=
  GateRequest.Build "H (Hadamard)" (Some 2) None 2.

(** A valid Hadamard that asks for a 7-qubit register. *)
Definition h0_on_7 : GateRequest.t :=
  GateRequest.Build "H (Hadamard)" (Some 0) None 7.

(** A Hadamard that asks for a register of size -1. *)
Definition h0_on_minus1 : GateRequest.t :=
  GateRequest.Build "H (Hadamard)" (Some 0) None (-1).

(** A Measure whose qubit fields are out of range and equal. *)
Definition measure_junk : GateRequest.t :=
  GateRequest.Build "Measure" (Some 9) (Some 9) 2.

End Examples.

(** ** The dispatch of [add_gate] and series of requests *)

Section Dispatch.

Context {lib : Qiskit}.

(** Lines 131-145, second line of each branch: the tuple [add_gate] appends
    for a gate of kind [k]. *)
Definition gate_tuple (k : GateKind.t) (target control : option Z) : gate :=
  match k with
  | GateKind.H => ("H", [of_field target])
  | GateKind.X => ("X", [of_field target])
  | GateKind.CX => ("CX", [of_field control; of_field target])
  | GateKind.CZ => ("CZ", [of_field control; of_field target])
  | GateKind.Measure => ("Measure", [PStr "All"])
  end.

(** Lines 131-145, first line of each branch: the method [add_gate] calls on
    the stored circuit for a gate of kind [k] in a request for [n] qubits. *)
Definition gate_call (k : GateKind.t) (target control : option Z) (n : Z)
    (c : QCirc) : outcome QCirc :=
  match k with
  | GateKind.H => qc_h c (of_field target)
  | GateKind.X => qc_x c (of_field target)
  | GateKind.CX => qc_cx c (of_field control) (of_field target)
  | GateKind.CZ => qc_cz c (of_field control) (of_field target)
  | GateKind.Measure => qc_measure c (PList (py_range n)) (PList (py_range n))
  end.

(** The tuples [add_gate] appends for a series of requests: one for each
    request that passes validation, in the order of the requests. *)
Fixpoint accepted_tuples (requests : list GateRequest.t) : list gate :=
  match requests with
  | [] => []
  | request :: rest =>
      match kind_of (GateRequest.gate_type request) with
      | Some k =>
          if invalid_gate_request request then accepted_tuples rest
          else gate_tuple k (GateRequest.target_qubit request)
                 (GateRequest.control_qubit request) :: accepted_tuples rest
      | None => accepted_tuples rest
      end
  end.

(** The gate methods return on the calls a series of requests makes: starting
    from circuit [c], each request that passes validation calls the method of
    its kind on the circuit the calls before it have left, and that call
    returns. *)
Fixpoint gate_calls_succeed (requests : list GateRequest.t) (c : QCirc) : Prop :=
  match requests with
  | [] => True
  | request :: rest =>
      match kind_of (GateRequest.gate_type request) with
      | Some k =>
          if invalid_gate_request request then gate_calls_succeed rest c
          else exists c',
                 gate_call k (GateRequest.target_qubit request)
                   (GateRequest.control_qubit request)
                   (GateRequest.qubits request) c = Ret c'
                 /\ gate_calls_succeed rest c'
      | None => gate_calls_succeed rest c
      end
  end.

End Dispatch.

(** A request to one of the four routes that use the session. *)
Inductive route : Type :=
| GetReset (qubits : Z)
| GetLoadExample (example : string) (qubits : Z)
| PostAddGate (request : GateRequest.t)
| GetSimulate (shots : Z).

Section Serving.

Context {lib : Qiskit}.

(** The session after one request, whatever the handler answered. *)
Definition serve (r : route) (st : circuit_state) : circuit_state :=
  match r with
  | GetReset qubits => snd (reset_circuit qubits st)
  | GetLoadExample example qubits => snd (load_example example qubits st)
  | PostAddGate request => snd (add_gate request st)
  | GetSimulate shots => snd (simulate_circuit shots st)
  end.

(** The session after a series of requests, served in order. *)
Fixpoint serve_all (rs : list route) (st : circuit_state) : circuit_state :=
  match rs with
  | [] => st
  | r :: rest => serve_all rest (serve r st)
  end.

End Serving.

Module MoreExamples.

Import Reference.

(** The session after the Bell example on 2 qubits. *)
Definition bell2 : circuit_state :=
  {| circuit :=
       Some {| num_qubits := 2; num_clbits := 2;
               data := [("h", [PInt 0]); ("cx", [PInt 0; PInt 1])] |};
     gates := [("H", [PInt 0]); ("CX", [PInt 0; PInt 1])];
     qubits := 2 |}.

(** The session after [reset_circuit(3)]. *)
Definition fresh3 : circuit_state :=
  {| circuit := Some {| num_qubits := 3; num_clbits := 3; data := [] |};
     gates := [];
     qubits := 3 |}.

(** A valid CNOT, control 0 and target 1, on a 2-qubit register. *)
Definition cx01_on_2 : GateRequest.t :=
  GateRequest.Build "CX (CNOT)" (Some 1) (Some 0) 2.

(** A CNOT on a 2-qubit register whose target and control are both 7. *)
Definition cx77_on_2 : GateRequest.t :=
  GateRequest.Build "CX (CNOT)" (Some 7) (Some 7) 2.

(** The reference implementation with a renderer that always fails. *)
Definition no_display : Qiskit := {|
  QCirc := circ;
  Oper := circ;
  Counts := (circ * Z)%type;
  str_exc := str;
  QuantumCircuit := new_circuit;
  qc_h := fun c q => apply "h" [q] c;
  qc_x := fun c q => apply "x" [q] c;
  qc_cx := fun c a b => apply "cx" [a; b] c;
  qc_cz := fun c a b => apply "cz" [a; b] c;
  qc_measure := fun c qs cs => apply "measure" [qs; cs] c;
  GroverOperator := fun oracle => Ret oracle;
  qc_append := fun c op qs => apply "append" [PStr "GroverOperator"; qs] c;
  aer_get_counts := run;
  draw_png := fun _ => Raise (LibraryError "no display");
  histogram_png := fun _ => Raise (LibraryError "no display")
|}.

End MoreExamples.

(** * Properties *)

(** ** Running the handlers *)

Ltac unfold_py :=
  unfold try_except, reraise_500, bind, when, raise, ret, call, get,
    set_qubits, set_circuit, set_gates, gates_append, on_circuit in *.

Section MonadLaws.

Context {S A B : Type}.

Lemma bind_ret (a : A) (k : A -> M S B) (st : S) :
  bind (ret a) k st = k a st.
Proof. reflexivity. Qed.

Lemma bind_raise (e : Exc) (k : A -> M S B) (st : S) :
  bind (raise e) k st = (Raise e, st).
Proof. reflexivity. Qed.

Lemma bind_run (m : M S A) (k : A -> M S B) (st st' : S) (a : A) :
  m st = (Ret a, st') -> bind m k st = k a st'.
Proof. intros Hm. unfold bind. now rewrite Hm. Qed.

Lemma bind_fail (m : M S A) (k : A -> M S B) (st st' : S) (e : Exc) :
  m st = (Raise e, st') -> bind m k st = (Raise e, st').
Proof. intros Hm. unfold bind. now rewrite Hm. Qed.

Lemma try_except_ok (m : M S A) (h : Exc -> M S A) (st st' : S) (a : A) :
  m st = (Ret a, st') -> try_except m h st = (Ret a, st').
Proof. intros Hm. unfold try_except. now rewrite Hm. Qed.

Lemma try_except_caught (m : M S A) (h : Exc -> M S A) (st st' : S) (e : Exc) :
  m st = (Raise e, st') -> try_except m h st = h e st'.
Proof. intros Hm. unfold try_except. now rewrite Hm. Qed.

End MonadLaws.

(** ** Steps of [simulate_circuit] *)

Section SimulateSteps.

Context {lib : Qiskit}.

Local Open Scope py_scope.

Lemma shots_test (shots : Z) :
  (100 <=? shots) && (shots <=? 10000) = true <-> 100 <= shots <= 10000.
Proof. rewrite andb_true_iff, !Z.leb_le. tauto. Qed.

Lemma shots_test_false (shots : Z) :
  (100 <=? shots) && (shots <=? 10000) = false <-> shots < 100 \/ 10000 < shots.
Proof. rewrite andb_false_iff, !Z.leb_gt. tauto. Qed.

Lemma simulate_bad_shots (shots : Z) (st : circuit_state) :
  shots < 100 \/ 10000 < shots ->
  simulate_circuit shots st =
    (Raise (http500 "Failed to simulate circuit: "
              (HTTPException 400 "Shots must be between 100 and 10000")), st).
Proof.
  intros Hs. apply shots_test_false in Hs.
  unfold simulate_circuit, simulate_circuit_body.
  rewrite Hs. reflexivity.
Qed.

Lemma simulate_no_circuit (shots : Z) (st : circuit_state) :
  100 <= shots <= 10000 ->
  circuit st = None ->
  simulate_circuit shots st =
    (Raise (http500 "Failed to simulate circuit: "
              (HTTPException 400 "No circuit defined")), st).
Proof.
  intros Hs Hc. apply shots_test in Hs.
  unfold simulate_circuit, simulate_circuit_body.
  rewrite Hs. unfold_py. simpl. rewrite Hc. reflexivity.
Qed.

Lemma simulate_past_checks (shots : Z) (st : circuit_state) (c : QCirc) :
  100 <= shots <= 10000 ->
  circuit st = Some c ->
  simulate_circuit shots st =
    try_except (add_measurement_if_absent ;; run_and_render shots)
      (reraise_500 "Failed to simulate circuit: ") st.
Proof.
  intros Hs Hc. apply shots_test in Hs.
  unfold simulate_circuit, simulate_circuit_body.
  rewrite Hs. unfold_py. simpl. rewrite Hc. reflexivity.
Qed.

Lemma add_measurement_present (st : circuit_state) :
  has_measure (gates st) = true ->
  add_measurement_if_absent st = (Ret tt, st).
Proof.
  intros Hm. unfold add_measurement_if_absent. unfold_py.
  rewrite Hm. reflexivity.
Qed.

Lemma add_measurement_absent (st : circuit_state) (c c' : QCirc) :
  has_measure (gates st) = false ->
  circuit st = Some c ->
  qc_measure c (PList (py_range (qubits st))) (PList (py_range (qubits st))) = Ret c' ->
  add_measurement_if_absent st =
    (Ret tt, {| circuit := Some c'; gates := gates st ++ [measure_all]; qubits := qubits st |}).
Proof.
  intros Hm Hc Hq. unfold add_measurement_if_absent. unfold_py.
  rewrite Hm. simpl. rewrite Hc, Hq. reflexivity.
Qed.

Lemma add_measurement_raises (st : circuit_state) (c : QCirc) (e : Exc) :
  has_measure (gates st) = false ->
  circuit st = Some c ->
  qc_measure c (PList (py_range (qubits st))) (PList (py_range (qubits st))) = Raise e ->
  add_measurement_if_absent st = (Raise e, st).
Proof.
  intros Hm Hc Hq. unfold add_measurement_if_absent. unfold_py.
  rewrite Hm. simpl. rewrite Hc, Hq. reflexivity.
Qed.

(** Running the simulator and rendering never write to the dictionary. *)
Lemma run_and_render_state (shots : Z) (st : circuit_state) :
  snd (run_and_render shots st) = st.
Proof.
  unfold run_and_render. unfold_py.
  destruct (aer_get_counts (circuit_obj st) shots); [|reflexivity].
  destruct (circuit_to_base64 (circuit_obj st) false); [|reflexivity].
  destruct (circuit_to_base64 (OCounts a) true); reflexivity.
Qed.

(** The [except] clause does not write to the dictionary either. *)
Lemma try_except_state {A} (m : M circuit_state A) (prefix : string)
    (st : circuit_state) :
  snd (try_except m (reraise_500 prefix) st) = snd (m st).
Proof.
  unfold try_except, reraise_500, raise. destruct (m st) as [[a|e] st']; reflexivity.
Qed.

(** Every exception a handler's [except] clause lets out is the status-500
    wrapper of the one its body raised. *)
Lemma try_except_wraps {A} (m : M circuit_state A) (prefix : string)
    (st : circuit_state) (e : Exc) :
  fst (try_except m (reraise_500 prefix) st) = Raise e ->
  exists e0, fst (m st) = Raise e0 /\ e = http500 prefix e0.
Proof.
  unfold try_except, reraise_500, raise. destruct (m st) as [[a|e0] st']; simpl; intros Heq.
  - discriminate.
  - exists e0. split; [reflexivity | congruence].
Qed.

(** With a Measure already in the gate list, [simulate_circuit] leaves the
    dictionary as it found it. *)
Lemma simulate_state_with_measure (shots : Z) (st : circuit_state) :
  has_measure (gates st) = true ->
  snd (simulate_circuit shots st) = st.
Proof.
  intros Hm.
  destruct (Z_le_dec 100 shots) as [Hlo|Hlo];
    [destruct (Z_le_dec shots 10000) as [Hhi|Hhi]|].
  - destruct (circuit st) as [c|] eqn:Hc.
    + rewrite (simulate_past_checks shots st c) by (auto; lia).
      rewrite try_except_state.
      rewrite (bind_run _ _ _ _ _ (add_measurement_present st Hm)).
      apply run_and_render_state.
    + rewrite simulate_no_circuit by (auto; lia). reflexivity.
  - rewrite simulate_bad_shots by lia. reflexivity.
  - rewrite simulate_bad_shots by lia. reflexivity.
Qed.

(** Without one, and once both checks pass and the library's [measure]
    returns, the dictionary holds the measured circuit and one more tuple. *)
Lemma simulate_state_without_measure (shots : Z) (st : circuit_state) (c c' : QCirc) :
  100 <= shots <= 10000 ->
  circuit st = Some c ->
  has_measure (gates st) = false ->
  qc_measure c (PList (py_range (qubits st))) (PList (py_range (qubits st))) = Ret c' ->
  snd (simulate_circuit shots st) =
    {| circuit := Some c'; gates := gates st ++ [measure_all]; qubits := qubits st |}.
Proof.
  intros Hs Hc Hm Hq.
  rewrite (simulate_past_checks shots st c) by assumption.
  rewrite try_except_state.
  rewrite (bind_run _ _ _ _ _ (add_measurement_absent st c c' Hm Hc Hq)).
  apply run_and_render_state.
Qed.

End SimulateSteps.

(** ** [simulate_circuit]: checks, errors and the implicit Measure *)

Section SimulateProperties.

Context {lib : Qiskit}.

Local Open Scope py_scope.

Lemma run_and_render_ok (shots : Z) (st : circuit_state) (c : QCirc)
    (counts : Counts) (img himg : string) :
  circuit st = Some c ->
  aer_get_counts (OCircuit c) shots = Ret counts ->
  circuit_to_base64 (OCircuit c) false = Ret img ->
  circuit_to_base64 (OCounts counts) true = Ret himg ->
  run_and_render shots st =
    (Ret {| SimulateResponse.circuit_image := img;
            SimulateResponse.histogram_image := himg |}, st).
Proof.
  intros Hc Hk Hi Hh. unfold run_and_render, circuit_obj. unfold_py.
  rewrite Hc, Hk, Hi, Hh. reflexivity.
Qed.

Lemma run_and_render_sampler_raises (shots : Z) (st : circuit_state) (e : Exc) :
  aer_get_counts (circuit_obj st) shots = Raise e ->
  run_and_render shots st = (Raise e, st).
Proof.
  intros Hk. unfold run_and_render. unfold_py. rewrite Hk. reflexivity.
Qed.

(** C6.  A shot count outside [[100, 10000]], and so every count below 1,
    makes [simulate_circuit] fail with the shot-count error (the status-400
    exception "Shots must be between 100 and 10000", as the [except] clause
    re-raises it) and leaves the session untouched: no library call has been
    made.  A count within the range passes the check: the handler goes on to
    the circuit check, and from there to the measurement and the run. *)
Theorem simulate_shot_count_check (shots : Z) (st : circuit_state) :
  (shots < 100 \/ 10000 < shots ->
   simulate_circuit shots st =
     (Raise (http500 "Failed to simulate circuit: "
               (HTTPException 400 "Shots must be between 100 and 10000")), st))
  /\ (shots < 1 ->
      simulate_circuit shots st =
        (Raise (http500 "Failed to simulate circuit: "
                  (HTTPException 400 "Shots must be between 100 and 10000")), st))
  /\ (100 <= shots <= 10000 ->
      simulate_circuit shots st =
        match circuit st with
        | None =>
            (Raise (http500 "Failed to simulate circuit: "
                      (HTTPException 400 "No circuit defined")), st)
        | Some _ =>
            try_except (add_measurement_if_absent ;; run_and_render shots)
              (reraise_500 "Failed to simulate circuit: ") st
        end).
Proof.
  split; [|split].
  - apply simulate_bad_shots.
  - intros Hlt. apply simulate_bad_shots. lia.
  - intros Hs. destruct (circuit st) as [c|] eqn:Hc.
    + now apply simulate_past_checks with (c := c).
    + now apply simulate_no_circuit.
Qed.

(** C5 (as amended).  No error of a sub-step reaches the caller unchanged:
    whatever the body of [simulate_circuit] raises is caught and replaced by
    an [HTTPException] of status 500 whose detail is "Failed to simulate
    circuit: " followed by [str] of the original.  So it is for the
    shot-count check, for the missing circuit, and for an exception of the
    simulator run. *)
Theorem simulate_errors_are_rewrapped (shots : Z) (st : circuit_state) :
  (forall e, fst (simulate_circuit shots st) = Raise e ->
     exists e0, fst (simulate_circuit_body shots st) = Raise e0
                /\ e = HTTPException 500 ("Failed to simulate circuit: " ++ str_exc e0)%string)
  /\ (shots < 100 \/ 10000 < shots ->
      fst (simulate_circuit shots st) =
        Raise (HTTPException 500
                 ("Failed to simulate circuit: "
                  ++ str_exc (HTTPException 400 "Shots must be between 100 and 10000"))%string))
  /\ (100 <= shots <= 10000 -> circuit st = None ->
      fst (simulate_circuit shots st) =
        Raise (HTTPException 500
                 ("Failed to simulate circuit: "
                  ++ str_exc (HTTPException 400 "No circuit defined"))%string))
  /\ (forall c e0,
        100 <= shots <= 10000 -> circuit st = Some c ->
        has_measure (gates st) = true ->
        aer_get_counts (OCircuit c) shots = Raise e0 ->
        fst (simulate_circuit shots st) =
          Raise (HTTPException 500 ("Failed to simulate circuit: " ++ str_exc e0)%string)).
Proof.
  repeat split.
  - intros e He. unfold simulate_circuit in He.
    apply try_except_wraps in He. exact He.
  - intros Hs. now rewrite simulate_bad_shots.
  - intros Hs Hc. now rewrite simulate_no_circuit.
  - intros c e0 Hs Hc Hm Hk.
    rewrite (simulate_past_checks shots st c Hs Hc).
    assert (Hbody : (add_measurement_if_absent ;; run_and_render shots) st = (Raise e0, st)).
    { rewrite (bind_run _ _ _ _ _ (add_measurement_present st Hm)).
      apply run_and_render_sampler_raises.
      unfold circuit_obj. now rewrite Hc. }
    rewrite (try_except_caught _ _ _ _ _ Hbody). reflexivity.
Qed.

(** C1 (as amended).  An empty gate sequence is no error.  With a shot count
    in [[100, 10000]] and no gates: when no circuit object exists (no reset,
    example or gate request has yet created one) the call fails with "No
    circuit defined"; when one exists, as after a reset, the call measures
    all qubits, runs the simulator and, the library calls returning, answers
    with the circuit image and the histogram image, the stored gate sequence
    now being the one Measure. *)
Theorem simulate_empty_circuit (shots : Z) (st : circuit_state) :
  gates st = [] ->
  100 <= shots <= 10000 ->
  (circuit st = None ->
   simulate_circuit shots st =
     (Raise (http500 "Failed to simulate circuit: "
               (HTTPException 400 "No circuit defined")), st))
  /\ (forall c c' counts img himg,
        circuit st = Some c ->
        qc_measure c (PList (py_range (qubits st))) (PList (py_range (qubits st))) = Ret c' ->
        aer_get_counts (OCircuit c') shots = Ret counts ->
        circuit_to_base64 (OCircuit c') false = Ret img ->
        circuit_to_base64 (OCounts counts) true = Ret himg ->
        simulate_circuit shots st =
          (Ret {| SimulateResponse.circuit_image := img;
                  SimulateResponse.histogram_image := himg |},
           {| circuit := Some c'; gates := [measure_all]; qubits := qubits st |})).
Proof.
  intros Hg Hs. split.
  - now apply simulate_no_circuit.
  - intros c c' counts img himg Hc Hq Hk Hi Hh.
    rewrite (simulate_past_checks shots st c Hs Hc).
    apply try_except_ok.
    assert (Hm : has_measure (gates st) = false) by now rewrite Hg.
    rewrite (bind_run _ _ _ _ _ (add_measurement_absent st c c' Hm Hc Hq)).
    rewrite Hg. simpl.
    now apply run_and_render_ok with (c := c') (counts := counts).
Qed.

(** C4 (as amended).  [simulate_circuit] works on the stored circuit, not on
    a copy.  It leaves the session as it found it when the gate sequence
    already holds a Measure, and when the shot count is refused or no circuit
    is stored; otherwise, both checks passed and the library's
    [measure] returning, the stored circuit is the measured one and the
    stored gate sequence has the Measure tuple appended, whether the run and
    the rendering that follow succeed or not. *)
Theorem simulate_stored_sequence (shots : Z) (st : circuit_state) :
  (has_measure (gates st) = true -> snd (simulate_circuit shots st) = st)
  /\ (shots < 100 \/ 10000 < shots -> snd (simulate_circuit shots st) = st)
  /\ (circuit st = None -> snd (simulate_circuit shots st) = st)
  /\ (forall c c',
        100 <= shots <= 10000 ->
        circuit st = Some c ->
        has_measure (gates st) = false ->
        qc_measure c (PList (py_range (qubits st))) (PList (py_range (qubits st))) = Ret c' ->
        snd (simulate_circuit shots st) =
          {| circuit := Some c'; gates := gates st ++ [measure_all]; qubits := qubits st |}).
Proof.
  split; [|split; [|split]].
  - apply simulate_state_with_measure.
  - intros Hs. now rewrite simulate_bad_shots.
  - intros Hc.
    destruct (Z_le_dec 100 shots) as [Hlo|Hlo];
      [destruct (Z_le_dec shots 10000) as [Hhi|Hhi]|].
    + rewrite simulate_no_circuit by (auto; lia). reflexivity.
    + rewrite simulate_bad_shots by lia. reflexivity.
    + rewrite simulate_bad_shots by lia. reflexivity.
  - intros c c'. apply simulate_state_without_measure.
Qed.

End SimulateProperties.

(** ** The implicit Measure *)

Section MeasureLists.

Lemma py_range_spec (n i : Z) : In i (py_range n) <-> 0 <= i < n.
Proof.
  unfold py_range. rewrite in_map_iff. split.
  - intros [k [Hk Hin]]. apply in_seq in Hin. lia.
  - intros Hi. exists (Z.to_nat i). split; [lia|].
    apply in_seq. lia.
Qed.

Lemma has_measure_app (gs hs : list gate) :
  has_measure (gs ++ hs) = has_measure gs || has_measure hs.
Proof.
  unfold has_measure, str_in. now rewrite map_app, existsb_app.
Qed.

Lemma has_measure_snoc (gs : list gate) :
  has_measure (gs ++ [measure_all]) = true.
Proof. rewrite has_measure_app. apply orb_true_r. Qed.

Lemma measure_count_app (gs hs : list gate) :
  measure_count (gs ++ hs) = (measure_count gs + measure_count hs)%nat.
Proof.
  unfold measure_count. now rewrite filter_app, length_app.
Qed.

Lemma measure_count_absent (gs : list gate) :
  has_measure gs = false -> measure_count gs = 0%nat.
Proof.
  unfold has_measure, str_in, measure_count.
  induction gs as [|g gs IH]; cbn [map existsb filter]; [reflexivity|].
  intros Hex. apply orb_false_iff in Hex as [Hg Hgs].
  rewrite String.eqb_sym in Hg. rewrite Hg. now apply IH.
Qed.

End MeasureLists.

Section ImplicitMeasure.

Context {lib : Qiskit}.

Local Open Scope py_scope.

(** C7 (as amended).  Once both checks have passed: when the stored gate
    sequence holds no Measure, [simulate_circuit] calls [measure] on the
    qubits 0, ..., n-1 (n the stored qubit count) and, that call returning,
    appends one Measure tuple, and only then runs the simulator, on that
    measured circuit; the sequence then has exactly one Measure, at its end.
    When a Measure is already there, anywhere in the sequence, none is added
    and the simulator runs on the session as it is: the sequence evaluated
    ends with a measurement only if the stored one does. *)
Theorem simulate_implicit_measure (shots : Z) (st : circuit_state) (c : QCirc) :
  100 <= shots <= 10000 ->
  circuit st = Some c ->
  (has_measure (gates st) = false ->
   forall c',
     qc_measure c (PList (py_range (qubits st))) (PList (py_range (qubits st))) = Ret c' ->
     simulate_circuit shots st =
       try_except (run_and_render shots) (reraise_500 "Failed to simulate circuit: ")
         {| circuit := Some c'; gates := gates st ++ [measure_all]; qubits := qubits st |}
     /\ gates (snd (simulate_circuit shots st)) = gates st ++ [measure_all]
     /\ measure_count (gates (snd (simulate_circuit shots st))) = 1%nat
     /\ (forall i, In i (py_range (qubits st)) <-> 0 <= i < qubits st))
  /\ (has_measure (gates st) = true ->
      simulate_circuit shots st =
        try_except (run_and_render shots) (reraise_500 "Failed to simulate circuit: ") st
      /\ snd (simulate_circuit shots st) = st).
Proof.
  intros Hs Hc. split.
  - intros Hm c' Hq.
    assert (Hsnd := simulate_state_without_measure shots st c c' Hs Hc Hm Hq).
    rewrite Hsnd. simpl. split; [|split; [|split]].
    + rewrite (simulate_past_checks shots st c Hs Hc).
      unfold try_except at 1 2.
      now rewrite (bind_run _ _ _ _ _ (add_measurement_absent st c c' Hm Hc Hq)).
    + reflexivity.
    + rewrite measure_count_app, (measure_count_absent _ Hm). reflexivity.
    + intros i. apply py_range_spec.
  - intros Hm. split.
    + rewrite (simulate_past_checks shots st c Hs Hc).
      unfold try_except at 1 2.
      now rewrite (bind_run _ _ _ _ _ (add_measurement_present st Hm)).
    + now apply simulate_state_with_measure.
Qed.

(** A successful call has passed both checks. *)
Lemma simulate_ok_inv (shots : Z) (st st' : circuit_state) (r : SimulateResponse.t) :
  simulate_circuit shots st = (Ret r, st') ->
  100 <= shots <= 10000 /\ exists c, circuit st = Some c.
Proof.
  intros Hrun.
  destruct (Z_le_dec 100 shots) as [Hlo|Hlo];
    [destruct (Z_le_dec shots 10000) as [Hhi|Hhi]|].
  - split; [lia|]. destruct (circuit st) as [c|] eqn:Hc; [now exists c|].
    rewrite simulate_no_circuit in Hrun by (auto; lia). discriminate.
  - rewrite simulate_bad_shots in Hrun by lia. discriminate.
  - rewrite simulate_bad_shots in Hrun by lia. discriminate.
Qed.

(** Once a Measure is stored, no series of simulations changes the session. *)
Lemma simulate_repeatedly_fixed (more : list Z) (st : circuit_state) :
  has_measure (gates st) = true ->
  simulate_repeatedly more st = st.
Proof.
  intros Hm. induction more as [|s more IH]; simpl; [reflexivity|].
  now rewrite (simulate_state_with_measure s st Hm).
Qed.

(** C10.  After a successful [simulate_circuit] call the stored gate sequence
    holds a Measure; it is the sequence of before, or that sequence with the
    one Measure tuple appended when it held none; and every further series of
    [simulate_circuit] calls, with any shot counts, leaves the session, hence
    the gate sequence, as that first call left it. *)
Theorem simulate_measure_appended_once (shots : Z) (st st' : circuit_state)
    (r : SimulateResponse.t) :
  simulate_circuit shots st = (Ret r, st') ->
  has_measure (gates st') = true
  /\ (gates st' = gates st
      \/ (has_measure (gates st) = false /\ gates st' = gates st ++ [measure_all]))
  /\ (forall more, gates (simulate_repeatedly more st') = gates st')
  /\ (forall more, measure_count (gates (simulate_repeatedly more st'))
                   = measure_count (gates st')).
Proof.
  intros Hrun.
  destruct (simulate_ok_inv _ _ _ _ Hrun) as [Hs [c Hc]].
  assert (Hst' : st' = snd (simulate_circuit shots st)) by now rewrite Hrun.
  assert (Hm' : has_measure (gates st') = true
                /\ (gates st' = gates st
                    \/ (has_measure (gates st) = false
                        /\ gates st' = gates st ++ [measure_all]))).
  { destruct (has_measure (gates st)) eqn:Hm.
    - rewrite (simulate_state_with_measure shots st Hm) in Hst'. subst st'.
      split; [assumption | now left].
    - destruct (qc_measure c (PList (py_range (qubits st)))
                  (PList (py_range (qubits st)))) as [c'|e] eqn:Hq.
      + rewrite (simulate_state_without_measure shots st c c' Hs Hc Hm Hq) in Hst'.
        subst st'. simpl. split; [apply has_measure_snoc | now right].
      + rewrite (simulate_past_checks shots st c Hs Hc) in Hrun.
        unfold try_except in Hrun.
        rewrite (bind_fail _ _ _ _ _ (add_measurement_raises st c e Hm Hc Hq)) in Hrun.
        discriminate. }
  destruct Hm' as [Hm' Hgs]. repeat split; try assumption.
  - intros more. now rewrite simulate_repeatedly_fixed.
  - intros more. now rewrite simulate_repeatedly_fixed.
Qed.

End ImplicitMeasure.

(** ** [add_gate]: re-creation and validation *)

Section AddGateProperties.

Context {lib : Qiskit}.

Local Open Scope py_scope.

Lemma missing_or_out_of_range_spec (q : option Z) (n : Z) :
  missing_or_out_of_range q n = negb (index_ok q n).
Proof. destruct q; reflexivity. Qed.

(** The labels of line 119 are the labels [add_gate] dispatches on. *)
Lemma supported_iff_kind (gate_type : string) :
  str_in gate_type supported_gate_types =
    match kind_of gate_type with Some _ => true | None => false end.
Proof.
  unfold str_in, supported_gate_types, kind_of. cbn [existsb].
  destruct (gate_type =? "H (Hadamard)")%string; [reflexivity|].
  destruct (gate_type =? "X (Pauli-X)")%string; [reflexivity|].
  destruct (gate_type =? "CX (CNOT)")%string; [reflexivity|].
  destruct (gate_type =? "CZ (Controlled-Z)")%string; [reflexivity|].
  destruct (gate_type =? "Measure")%string; reflexivity.
Qed.

(** A label of a known kind is that kind's literal. *)
Lemma kind_of_label (gate_type : string) (k : GateKind.t) :
  kind_of gate_type = Some k ->
  gate_type =
    match k with
    | GateKind.H => "H (Hadamard)"
    | GateKind.X => "X (Pauli-X)"
    | GateKind.CX => "CX (CNOT)"
    | GateKind.CZ => "CZ (Controlled-Z)"
    | GateKind.Measure => "Measure"
    end.
Proof.
  unfold kind_of.
  destruct (String.eqb_spec gate_type "H (Hadamard)"); [intros [= <-]; assumption|].
  destruct (String.eqb_spec gate_type "X (Pauli-X)"); [intros [= <-]; assumption|].
  destruct (String.eqb_spec gate_type "CX (CNOT)"); [intros [= <-]; assumption|].
  destruct (String.eqb_spec gate_type "CZ (Controlled-Z)"); [intros [= <-]; assumption|].
  destruct (String.eqb_spec gate_type "Measure"); [intros [= <-]; assumption|].
  discriminate.
Qed.

(** On a session whose circuit is missing or of another size, a request runs
    as it would on a new, empty circuit of the requested size, provided the
    library builds one. *)
Lemma add_gate_replaced (request : GateRequest.t) (st : circuit_state) (c : QCirc) :
  needs_new_circuit st request = true ->
  QuantumCircuit (GateRequest.qubits request) (Some (GateRequest.qubits request)) = Ret c ->
  add_gate request st =
    add_gate request
      {| circuit := Some c; gates := []; qubits := GateRequest.qubits request |}.
Proof.
  intros Hnew Hctor. unfold add_gate, add_gate_body. unfold_py.
  rewrite Hnew, Hctor. unfold needs_new_circuit. cbn [circuit qubits gates].
  rewrite Z.eqb_refl. reflexivity.
Qed.

(** When the library refuses to build the circuit, the stored qubit count
    has already been overwritten; circuit and gates are the old ones. *)
Lemma add_gate_constructor_raises (request : GateRequest.t) (st : circuit_state)
    (e : Exc) :
  needs_new_circuit st request = true ->
  QuantumCircuit (GateRequest.qubits request) (Some (GateRequest.qubits request)) = Raise e ->
  add_gate request st =
    (Raise (http500 "Failed to add gate: " e),
     {| circuit := circuit st; gates := gates st; qubits := GateRequest.qubits request |}).
Proof.
  intros Hnew Hctor. unfold add_gate, add_gate_body. unfold_py.
  rewrite Hnew, Hctor. reflexivity.
Qed.

(** An invalid request on a session that needs no new circuit. *)
Lemma add_gate_invalid_in_place (request : GateRequest.t) (st : circuit_state) :
  invalid_gate_request request = true ->
  needs_new_circuit st request = false ->
  exists d, In d invalid_gate_details
    /\ add_gate request st =
         (Raise (http500 "Failed to add gate: " (HTTPException 400 d)), st).
Proof.
  destruct request as [gate_type target control n].
  unfold invalid_gate_request. cbn [GateRequest.gate_type GateRequest.target_qubit
    GateRequest.control_qubit GateRequest.qubits].
  intros Hinv Hnew.
  unfold add_gate, add_gate_body. unfold_py.
  cbn [GateRequest.gate_type GateRequest.target_qubit
    GateRequest.control_qubit GateRequest.qubits].
  rewrite Hnew, supported_iff_kind, !missing_or_out_of_range_spec.
  destruct (kind_of gate_type) as [k|] eqn:Hk.
  - apply kind_of_label in Hk. subst gate_type.
    destruct k; cbn in Hinv |- *; try discriminate.
    + rewrite Hinv. eexists. split; [|reflexivity]. cbn. tauto.
    + rewrite Hinv. eexists. split; [|reflexivity]. cbn. tauto.
    + destruct (index_ok target n); cbn in Hinv |- *;
        [|eexists; split; [|reflexivity]; cbn; tauto].
      destruct (index_ok control n); cbn in Hinv |- *;
        [|eexists; split; [|reflexivity]; cbn; tauto].
      rewrite Hinv. eexists; split; [|reflexivity]; cbn; tauto.
    + destruct (index_ok target n); cbn in Hinv |- *;
        [|eexists; split; [|reflexivity]; cbn; tauto].
      destruct (index_ok control n); cbn in Hinv |- *;
        [|eexists; split; [|reflexivity]; cbn; tauto].
      rewrite Hinv. eexists; split; [|reflexivity]; cbn; tauto.
  - cbn. eexists. split; [|reflexivity]. cbn. tauto.
Qed.

Lemma needs_new_circuit_false (st : circuit_state) (request : GateRequest.t) :
  needs_new_circuit st request = false <->
  (exists c, circuit st = Some c) /\ qubits st = GateRequest.qubits request.
Proof.
  unfold needs_new_circuit. rewrite orb_false_iff, negb_false_iff, Z.eqb_eq.
  destruct (circuit st) as [c|]; split.
  - intros [_ Hq]. split; [now exists c | assumption].
  - intros [_ Hq]. now split.
  - intros [Hc _]. discriminate.
  - intros [[c Hc] _]. discriminate.
Qed.

Lemma needs_new_circuit_true (st : circuit_state) (request : GateRequest.t) :
  needs_new_circuit st request = true <->
  circuit st = None \/ qubits st <> GateRequest.qubits request.
Proof.
  unfold needs_new_circuit. rewrite orb_true_iff, negb_true_iff, Z.eqb_neq.
  destruct (circuit st) as [c|]; split; intros [Hc|Hq]; auto; discriminate.
Qed.

(** C2 (as amended).  An invalid gate request makes [add_gate] fail, with an
    [HTTPException] of status 500, and no gate is applied or appended: the
    stored gate sequence is afterwards the one of before or empty, and the
    stored circuit the one of before or a newly built one.  When a circuit
    is stored and the request's qubit count is the stored one, the error is
    one of the four validation errors (status 400, re-raised by the [except]
    clause) and the session is left as it was.  When no circuit is stored or
    the counts differ, and the library builds a circuit of the requested
    size, the circuit has been replaced before the request is validated: the
    error is one of the four validation errors, and the failed call leaves
    the new, empty circuit of the requested size; the gates stored before
    are gone. *)
Theorem add_gate_invalid_request (request : GateRequest.t) (st : circuit_state) :
  invalid_gate_request request = true ->
  ((exists e, fst (add_gate request st) = Raise (http500 "Failed to add gate: " e))
   /\ (gates (snd (add_gate request st)) = gates st
       \/ gates (snd (add_gate request st)) = [])
   /\ (circuit (snd (add_gate request st)) = circuit st
       \/ exists c,
            QuantumCircuit (GateRequest.qubits request)
              (Some (GateRequest.qubits request)) = Ret c
            /\ circuit (snd (add_gate request st)) = Some c))
  /\ (forall c0,
        circuit st = Some c0 ->
        qubits st = GateRequest.qubits request ->
        exists d, In d invalid_gate_details
          /\ add_gate request st =
               (Raise (http500 "Failed to add gate: " (HTTPException 400 d)), st))
  /\ (forall c,
        circuit st = None \/ qubits st <> GateRequest.qubits request ->
        QuantumCircuit (GateRequest.qubits request)
          (Some (GateRequest.qubits request)) = Ret c ->
        exists d, In d invalid_gate_details
          /\ add_gate request st =
               (Raise (http500 "Failed to add gate: " (HTTPException 400 d)),
                {| circuit := Some c; gates := [];
                   qubits := GateRequest.qubits request |})).
Proof.
  intros Hinv.
  assert (Hfresh : forall c,
            needs_new_circuit
              {| circuit := Some c; gates := [];
                 qubits := GateRequest.qubits request |} request = false).
  { intros c. apply needs_new_circuit_false. split; [now exists c | reflexivity]. }
  split; [|split].
  - destruct (needs_new_circuit st request) eqn:Hnew.
    + destruct (QuantumCircuit (GateRequest.qubits request)
                  (Some (GateRequest.qubits request))) as [c|e] eqn:Hctor.
      * rewrite (add_gate_replaced request st c Hnew Hctor).
        destruct (add_gate_invalid_in_place request _ Hinv (Hfresh c))
          as [d [_ Hrun]].
        rewrite Hrun. cbn. split; [eauto|]. split; [now right|].
        right. now exists c.
      * rewrite (add_gate_constructor_raises request st e Hnew Hctor).
        cbn. split; [eauto|]. split; now left.
    + destruct (add_gate_invalid_in_place request st Hinv Hnew) as [d [_ Hrun]].
      rewrite Hrun. cbn. split; [eauto|]. split; now left.
  - intros c0 Hc Hq. apply add_gate_invalid_in_place; [assumption|].
    apply needs_new_circuit_false. split; [now exists c0 | assumption].
  - intros c Hstale Hctor.
    apply needs_new_circuit_true in Hstale.
    rewrite (add_gate_replaced request st c Hstale Hctor).
    apply add_gate_invalid_in_place; [assumption | apply Hfresh].
Qed.

(** A Measure request on a session that needs no new circuit. *)
Lemma add_gate_measure_in_place (target control : option Z) (st : circuit_state)
    (c0 c1 : QCirc) (img : string) :
  circuit st = Some c0 ->
  qc_measure c0 (PList (py_range (qubits st))) (PList (py_range (qubits st))) = Ret c1 ->
  circuit_to_base64 (OCircuit c1) false = Ret img ->
  add_gate (GateRequest.Build "Measure" target control (qubits st)) st =
    (Ret {| Response.gates := gates st ++ [measure_all];
            Response.circuit_image := Some img |},
     {| circuit := Some c1; gates := gates st ++ [measure_all]; qubits := qubits st |}).
Proof.
  intros Hc Hq Hi. unfold add_gate, add_gate_body. unfold_py.
  unfold needs_new_circuit, circuit_obj.
  cbn [GateRequest.gate_type GateRequest.target_qubit
    GateRequest.control_qubit GateRequest.qubits].
  rewrite Hc, Z.eqb_refl. cbn. rewrite Hc, Hq. cbn. rewrite Hi. reflexivity.
Qed.

(** C9.  For a Measure request the fields [target_qubit] and [control_qubit]
    play no part: two Measure requests that differ only in them have the same
    result and leave the same session, whatever the fields hold.  The request
    is not validated against them; the library's [measure] and the rendering
    returning, it succeeds, measures the qubits 0, ..., n-1 and appends the
    Measure tuple, on the stored circuit or, the stored circuit missing or of
    another size, on the new one. *)
Theorem add_gate_measure_ignores_qubit_fields (n : Z)
    (target control target' control' : option Z) (st : circuit_state) :
  add_gate (GateRequest.Build "Measure" target control n) st =
    add_gate (GateRequest.Build "Measure" target' control' n) st
  /\ invalid_gate_request (GateRequest.Build "Measure" target control n) = false
  /\ (forall c0 c1 img,
        circuit st = Some c0 -> qubits st = n ->
        qc_measure c0 (PList (py_range n)) (PList (py_range n)) = Ret c1 ->
        circuit_to_base64 (OCircuit c1) false = Ret img ->
        add_gate (GateRequest.Build "Measure" target control n) st =
          (Ret {| Response.gates := gates st ++ [measure_all];
                  Response.circuit_image := Some img |},
           {| circuit := Some c1; gates := gates st ++ [measure_all]; qubits := n |}))
  /\ (forall c0 c1 img,
        circuit st = None \/ qubits st <> n ->
        QuantumCircuit n (Some n) = Ret c0 ->
        qc_measure c0 (PList (py_range n)) (PList (py_range n)) = Ret c1 ->
        circuit_to_base64 (OCircuit c1) false = Ret img ->
        add_gate (GateRequest.Build "Measure" target control n) st =
          (Ret {| Response.gates := [measure_all];
                  Response.circuit_image := Some img |},
           {| circuit := Some c1; gates := [measure_all]; qubits := n |})).
Proof.
  split; [reflexivity|]. split; [reflexivity|]. split.
  - intros c0 c1 img Hc Hn Hq Hi. subst n.
    now apply add_gate_measure_in_place with (c0 := c0).
  - intros c0 c1 img Hstale Hctor Hq Hi.
    apply (needs_new_circuit_true st (GateRequest.Build "Measure" target control n))
      in Hstale.
    rewrite (add_gate_replaced _ st c0 Hstale Hctor).
    cbn [GateRequest.qubits].
    exact (add_gate_measure_in_place target control
             {| circuit := Some c0; gates := []; qubits := n |} c0 c1 img
             eq_refl Hq Hi).
Qed.

End AddGateProperties.

(** ** Register sizes *)

Section RegisterSize.

Context {lib : Qiskit}.

Lemma size_test_false (qubits : Z) :
  (1 <=? qubits) && (qubits <=? 5) = false <-> qubits < 1 \/ 5 < qubits.
Proof. rewrite andb_false_iff, !Z.leb_gt. tauto. Qed.

(** [reset_circuit] refuses a size outside [[1, 5]] before it writes. *)
Lemma reset_circuit_refuses (qubits : Z) (st : circuit_state) :
  qubits < 1 \/ 5 < qubits ->
  reset_circuit qubits st =
    (Raise (http500 "Failed to reset circuit: "
              (HTTPException 400 "Qubits must be between 1 and 5")), st).
Proof.
  intros Hq. apply size_test_false in Hq.
  unfold reset_circuit, reset_circuit_body. unfold_py.
  rewrite Hq. reflexivity.
Qed.

(** So does [load_example], whatever the example. *)
Lemma load_example_refuses (example : string) (qubits : Z) (st : circuit_state) :
  qubits < 1 \/ 5 < qubits ->
  load_example example qubits st =
    (Raise (http500 "Failed to load example: "
              (HTTPException 400 "Qubits must be between 1 and 5")), st).
Proof.
  intros Hq. apply size_test_false in Hq.
  unfold load_example, load_example_body. unfold_py.
  rewrite Hq. reflexivity.
Qed.

(** Within the range, [reset_circuit] stores the new circuit, empty. *)
Lemma reset_circuit_creates (qubits : Z) (st : circuit_state) (c : QCirc) :
  1 <= qubits <= 5 ->
  QuantumCircuit qubits (Some qubits) = Ret c ->
  reset_circuit qubits st =
    (Ret {| Response.gates := []; Response.circuit_image := None |},
     {| circuit := Some c; gates := []; qubits := qubits |}).
Proof.
  intros Hq Hctor.
  assert (Ht : (1 <=? qubits) && (qubits <=? 5) = true).
  { apply andb_true_iff. rewrite !Z.leb_le. lia. }
  unfold reset_circuit, reset_circuit_body. unfold_py.
  rewrite Ht. cbn. rewrite Hctor. reflexivity.
Qed.

(** [add_gate] has no such test: a valid Hadamard that asks for any size the
    library can build is applied to a new circuit of that size. *)
Lemma add_gate_any_size (target n : Z) (st : circuit_state) (c c' : QCirc)
    (img : string) :
  circuit st = None \/ qubits st <> n ->
  0 <= target < n ->
  QuantumCircuit n (Some n) = Ret c ->
  qc_h c (PInt target) = Ret c' ->
  circuit_to_base64 (OCircuit c') false = Ret img ->
  add_gate (GateRequest.Build "H (Hadamard)" (Some target) None n) st =
    (Ret {| Response.gates := [("H", [PInt target])];
            Response.circuit_image := Some img |},
     {| circuit := Some c'; gates := [("H", [PInt target])]; qubits := n |}).
Proof.
  intros Hstale Ht Hctor Hh Hi.
  apply (needs_new_circuit_true st
           (GateRequest.Build "H (Hadamard)" (Some target) None n)) in Hstale.
  rewrite (add_gate_replaced _ st c Hstale Hctor).
  assert (Hr : missing_or_out_of_range (Some target) n = false).
  { unfold missing_or_out_of_range. apply negb_false_iff, andb_true_iff.
    rewrite Z.leb_le, Z.ltb_lt. lia. }
  unfold add_gate, add_gate_body. unfold_py.
  unfold needs_new_circuit, circuit_obj.
  cbn [GateRequest.gate_type GateRequest.target_qubit
    GateRequest.control_qubit GateRequest.qubits circuit gates qubits].
  rewrite Z.eqb_refl, Hr. cbn. rewrite Hh. cbn. rewrite Hi. reflexivity.
Qed.

End RegisterSize.

(** ** [reset_circuit] and [load_example] *)

Section ResetAndExamples.

Context {lib : Qiskit}.

Local Open Scope py_scope.

Lemma size_test_true (qubits : Z) :
  1 <= qubits <= 5 -> (1 <=? qubits) && (qubits <=? 5) = true.
Proof. intros Hq. apply andb_true_iff. rewrite !Z.leb_le. lia. Qed.

(** X1.  [reset_circuit] refuses a size outside [[1, 5]] with the session
    untouched; within the range, the library building the circuit, the new
    session and the answer are the same whatever the session held before: the
    new circuit, no gates, no image. *)
Theorem reset_circuit_contract (qubits : Z) (st : circuit_state) :
  (qubits < 1 \/ 5 < qubits ->
   reset_circuit qubits st =
     (Raise (http500 "Failed to reset circuit: "
               (HTTPException 400 "Qubits must be between 1 and 5")), st))
  /\ (forall c,
        1 <= qubits <= 5 ->
        QuantumCircuit qubits (Some qubits) = Ret c ->
        reset_circuit qubits st =
          (Ret {| Response.gates := []; Response.circuit_image := None |},
           {| circuit := Some c; gates := []; qubits := qubits |}))
  /\ (forall e,
        1 <= qubits <= 5 ->
        QuantumCircuit qubits (Some qubits) = Raise e ->
        reset_circuit qubits st =
          (Raise (http500 "Failed to reset circuit: " e),
           {| circuit := circuit st; gates := gates st; qubits := qubits |})).
Proof.
  split; [|split].
  - apply reset_circuit_refuses.
  - intros c. apply reset_circuit_creates.
  - intros e Hq Hctor. apply size_test_true in Hq.
    unfold reset_circuit, reset_circuit_body. unfold_py.
    rewrite Hq. cbn. rewrite Hctor. reflexivity.
Qed.

(** X2.  The Bell example on 2 to 5 qubits, the library calls returning:
    [h(0)] then [cx(0, 1)] are applied to a new circuit, the stored gate
    sequence is H on 0 followed by CX on (0, 1) whatever was stored before,
    and the answer carries that sequence and the image of the circuit. *)
Theorem load_example_bell (qubits : Z) (st : circuit_state) (c c1 c2 : QCirc)
    (img : string) :
  2 <= qubits <= 5 ->
  QuantumCircuit qubits (Some qubits) = Ret c ->
  qc_h c (PInt 0) = Ret c1 ->
  qc_cx c1 (PInt 0) (PInt 1) = Ret c2 ->
  circuit_to_base64 (OCircuit c2) false = Ret img ->
  load_example "Bell State (Entanglement)" qubits st =
    (Ret {| Response.gates := [("H", [PInt 0]); ("CX", [PInt 0; PInt 1])];
            Response.circuit_image := Some img |},
     {| circuit := Some c2;
        gates := [("H", [PInt 0]); ("CX", [PInt 0; PInt 1])];
        qubits := qubits |}).
Proof.
  intros Hq Hctor Hh Hcx Hi.
  assert (Ht : (1 <=? qubits) && (qubits <=? 5) = true)
    by (apply size_test_true; lia).
  assert (H2 : (qubits <? 2) = false) by (apply Z.ltb_ge; lia).
  unfold load_example, load_example_body. unfold_py. unfold circuit_obj.
  rewrite Ht. cbn. rewrite Hctor. cbn. rewrite H2. cbn.
  rewrite Hh. cbn. rewrite Hcx. cbn. rewrite Hi. reflexivity.
Qed.

(** X3.  The Grover example on exactly 2 qubits, the library calls returning:
    the oracle is a 2-qubit circuit with [cz(0, 1)], the stored circuit gets
    [h([0, 1])] and the Grover operator of that oracle on qubits [[0, 1]], and
    the stored gate sequence is the two tuples of line 99. *)
Theorem load_example_grover (st : circuit_state) (c c1 c2 oracle oracle1 : QCirc)
    (grover_op : Oper) (img : string) :
  QuantumCircuit 2 (Some 2) = Ret c ->
  QuantumCircuit 2 None = Ret oracle ->
  qc_cz oracle (PInt 0) (PInt 1) = Ret oracle1 ->
  GroverOperator oracle1 = Ret grover_op ->
  qc_h c (PList [0; 1]) = Ret c1 ->
  qc_append c1 grover_op (PList [0; 1]) = Ret c2 ->
  circuit_to_base64 (OCircuit c2) false = Ret img ->
  load_example "Grover's Algorithm (2-Qubit Search)" 2 st =
    (Ret {| Response.gates := [("H", [PList [0; 1]]); ("Grover Operator", [PList [0; 1]])];
            Response.circuit_image := Some img |},
     {| circuit := Some c2;
        gates := [("H", [PList [0; 1]]); ("Grover Operator", [PList [0; 1]])];
        qubits := 2 |}).
Proof.
  intros Hctor Ho Hcz Hg Hh Ha Hi.
  unfold load_example, load_example_body. unfold_py. unfold circuit_obj.
  cbn. rewrite Hctor. cbn. rewrite Ho. cbn. rewrite Hcz. cbn. rewrite Hg. cbn.
  rewrite Hh. cbn. rewrite Ha. cbn. rewrite Hi. reflexivity.
Qed.

(** X4.  [load_example] replaces the session before it looks at the example.
    With a size in [[1, 5]] that the library builds, a call that then fails
    on the example (the Bell example on 1 qubit, the Grover example on a size
    other than 2, an unknown name) leaves the new, empty circuit behind, not
    the session of before. *)
Theorem load_example_failure_resets_session (example : string) (qubits : Z)
    (st : circuit_state) (c : QCirc) :
  1 <= qubits <= 5 ->
  QuantumCircuit qubits (Some qubits) = Ret c ->
  (example = "Bell State (Entanglement)" -> qubits < 2 ->
   load_example example qubits st =
     (Raise (http500 "Failed to load example: "
               (HTTPException 400 "Bell State requires at least 2 qubits")),
      {| circuit := Some c; gates := []; qubits := qubits |}))
  /\ (example = "Grover's Algorithm (2-Qubit Search)" -> qubits <> 2 ->
      load_example example qubits st =
        (Raise (http500 "Failed to load example: "
                  (HTTPException 400 "Grover's example requires exactly 2 qubits")),
         {| circuit := Some c; gates := []; qubits := qubits |}))
  /\ (example <> "Bell State (Entanglement)" ->
      example <> "Grover's Algorithm (2-Qubit Search)" ->
      load_example example qubits st =
        (Raise (http500 "Failed to load example: "
                  (HTTPException 400 "Invalid example")),
         {| circuit := Some c; gates := []; qubits := qubits |})).
Proof.
  intros Hq Hctor.
  assert (Ht := size_test_true qubits Hq).
  split; [|split].
  - intros -> H2. apply Z.ltb_lt in H2.
    unfold load_example, load_example_body. unfold_py.
    rewrite Ht. cbn. rewrite Hctor. cbn. rewrite H2. reflexivity.
  - intros -> H2. apply Z.eqb_neq in H2.
    unfold load_example, load_example_body. unfold_py.
    rewrite Ht. cbn. rewrite Hctor. cbn. rewrite H2. reflexivity.
  - intros Hb Hg. apply String.eqb_neq in Hb, Hg.
    unfold load_example, load_example_body. unfold_py.
    rewrite Ht. cbn [negb]. rewrite Hctor, Hb, Hg. reflexivity.
Qed.

End ResetAndExamples.

(** ** [add_gate]: valid requests, rendering and the order of the checks *)

Section AddGateDispatch.

Context {lib : Qiskit}.

Local Open Scope py_scope.

(** What [add_gate] does, on a session that needs no new circuit, with a
    request that passes validation: the library call of the gate's kind, the
    tuple, the rendering. *)
Lemma add_gate_valid_in_place (request : GateRequest.t) (st : circuit_state)
    (k : GateKind.t) (c0 : QCirc) :
  circuit st = Some c0 ->
  qubits st = GateRequest.qubits request ->
  kind_of (GateRequest.gate_type request) = Some k ->
  invalid_gate_request request = false ->
  add_gate request st =
    match gate_call k (GateRequest.target_qubit request)
            (GateRequest.control_qubit request) (GateRequest.qubits request) c0 with
    | Raise e => (Raise (http500 "Failed to add gate: " e), st)
    | Ret c1 =>
        let g := gate_tuple k (GateRequest.target_qubit request)
                   (GateRequest.control_qubit request) in
        let st1 := {| circuit := Some c1; gates := gates st ++ [g]; qubits := qubits st |} in
        match circuit_to_base64 (OCircuit c1) false with
        | Ret img =>
            (Ret {| Response.gates := gates st ++ [g];
                    Response.circuit_image := Some img |}, st1)
        | Raise e => (Raise (http500 "Failed to add gate: " e), st1)
        end
    end.
Proof.
  destruct request as [gate_type target control n].
  unfold invalid_gate_request.
  cbn [GateRequest.gate_type GateRequest.target_qubit
    GateRequest.control_qubit GateRequest.qubits].
  intros Hc Hq Hk Hinv. rewrite Hk in Hinv. subst n.
  unfold add_gate, add_gate_body. unfold_py. unfold needs_new_circuit, circuit_obj.
  cbn [GateRequest.gate_type GateRequest.target_qubit
    GateRequest.control_qubit GateRequest.qubits].
  rewrite Hc, Z.eqb_refl, supported_iff_kind, Hk, !missing_or_out_of_range_spec.
  apply kind_of_label in Hk. subst gate_type.
  destruct k; cbn in Hinv |- *.
  - apply negb_false_iff in Hinv. rewrite Hinv. cbn. rewrite Hc.
    destruct (qc_h c0 (of_field target)) as [c1|e]; [|reflexivity].
    cbn. destruct (circuit_to_base64 (OCircuit c1) false); reflexivity.
  - apply negb_false_iff in Hinv. rewrite Hinv. cbn. rewrite Hc.
    destruct (qc_x c0 (of_field target)) as [c1|e]; [|reflexivity].
    cbn. destruct (circuit_to_base64 (OCircuit c1) false); reflexivity.
  - apply orb_false_iff in Hinv as [Hinv He].
    apply orb_false_iff in Hinv as [Ht Hctl].
    apply negb_false_iff in Ht, Hctl. rewrite Ht, Hctl, He. cbn. rewrite Hc.
    destruct (qc_cx c0 (of_field control) (of_field target)) as [c1|e]; [|reflexivity].
    cbn. destruct (circuit_to_base64 (OCircuit c1) false); reflexivity.
  - apply orb_false_iff in Hinv as [Hinv He].
    apply orb_false_iff in Hinv as [Ht Hctl].
    apply negb_false_iff in Ht, Hctl. rewrite Ht, Hctl, He. cbn. rewrite Hc.
    destruct (qc_cz c0 (of_field control) (of_field target)) as [c1|e]; [|reflexivity].
    cbn. destruct (circuit_to_base64 (OCircuit c1) false); reflexivity.
  - rewrite Hc.
    destruct (qc_measure c0 (PList (py_range (qubits st)))
                (PList (py_range (qubits st)))) as [c1|e];
      [|reflexivity].
    cbn. destruct (circuit_to_base64 (OCircuit c1) false); reflexivity.
Qed.

(** X5.  A request that passes validation, of the stored size, the library
    call of its kind and the rendering returning: the gate is applied to the
    stored circuit, exactly one tuple is appended to the stored sequence (H
    and X with the target, CX and CZ with control then target, Measure with
    "All"), nothing stored before is touched, and the answer carries the
    stored sequence and the image. *)
Theorem add_gate_valid_request (request : GateRequest.t) (st : circuit_state)
    (k : GateKind.t) (c0 c1 : QCirc) (img : string) :
  circuit st = Some c0 ->
  qubits st = GateRequest.qubits request ->
  kind_of (GateRequest.gate_type request) = Some k ->
  invalid_gate_request request = false ->
  gate_call k (GateRequest.target_qubit request) (GateRequest.control_qubit request)
    (GateRequest.qubits request) c0 = Ret c1 ->
  circuit_to_base64 (OCircuit c1) false = Ret img ->
  add_gate request st =
    (Ret {| Response.gates :=
              gates st ++ [gate_tuple k (GateRequest.target_qubit request)
                             (GateRequest.control_qubit request)];
            Response.circuit_image := Some img |},
     {| circuit := Some c1;
        gates :=
          gates st ++ [gate_tuple k (GateRequest.target_qubit request)
                         (GateRequest.control_qubit request)];
        qubits := qubits st |}).
Proof.
  intros Hc Hq Hk Hinv Hcall Hi.
  rewrite (add_gate_valid_in_place request st k c0 Hc Hq Hk Hinv).
  rewrite Hcall. cbn zeta. rewrite Hi. reflexivity.
Qed.

(** X6.  [add_gate] renders after it has stored the gate.  When the drawing
    of the circuit raises, the call fails, with the rendering error wrapped
    twice (by [circuit_to_base64], then by the handler), and the gate is
    nevertheless applied and appended: a failed call has changed the
    session. *)
Theorem add_gate_render_failure_keeps_gate (request : GateRequest.t)
    (st : circuit_state) (k : GateKind.t) (c0 c1 : QCirc) (e : Exc) :
  circuit st = Some c0 ->
  qubits st = GateRequest.qubits request ->
  kind_of (GateRequest.gate_type request) = Some k ->
  invalid_gate_request request = false ->
  gate_call k (GateRequest.target_qubit request) (GateRequest.control_qubit request)
    (GateRequest.qubits request) c0 = Ret c1 ->
  draw_png (OCircuit c1) = Raise e ->
  add_gate request st =
    (Raise (HTTPException 500
              ("Failed to add gate: "
               ++ str_exc (HTTPException 500
                             ("Failed to generate image: " ++ str_exc e)))%string),
     {| circuit := Some c1;
        gates :=
          gates st ++ [gate_tuple k (GateRequest.target_qubit request)
                         (GateRequest.control_qubit request)];
        qubits := qubits st |}).
Proof.
  intros Hc Hq Hk Hinv Hcall Hd.
  rewrite (add_gate_valid_in_place request st k c0 Hc Hq Hk Hinv).
  rewrite Hcall. cbn zeta. unfold circuit_to_base64. rewrite Hd. reflexivity.
Qed.

(** When the library call of the gate raises, nothing is appended. *)
Lemma add_gate_call_raises (request : GateRequest.t) (st : circuit_state)
    (k : GateKind.t) (c0 : QCirc) (e : Exc) :
  circuit st = Some c0 ->
  qubits st = GateRequest.qubits request ->
  kind_of (GateRequest.gate_type request) = Some k ->
  invalid_gate_request request = false ->
  gate_call k (GateRequest.target_qubit request) (GateRequest.control_qubit request)
    (GateRequest.qubits request) c0 = Raise e ->
  add_gate request st = (Raise (http500 "Failed to add gate: " e), st).
Proof.
  intros Hc Hq Hk Hinv Hcall.
  rewrite (add_gate_valid_in_place request st k c0 Hc Hq Hk Hinv).
  now rewrite Hcall.
Qed.

End AddGateDispatch.

(** ** [add_gate]: more on validation and re-creation *)

Section AddGateChecks.

Context {lib : Qiskit}.

Local Open Scope py_scope.

(** X7.  The checks of [add_gate] run in a fixed order and the first that
    fails decides the error: the gate type, then (Measure apart) the target,
    then for CX and CZ the control, then control against target.  A request
    wrong in several ways reports only the first. *)
Theorem add_gate_first_failed_check (request : GateRequest.t) (st : circuit_state)
    (c0 : QCirc) :
  circuit st = Some c0 ->
  qubits st = GateRequest.qubits request ->
  let n := GateRequest.qubits request in
  let target := GateRequest.target_qubit request in
  let control := GateRequest.control_qubit request in
  let fails_with detail :=
    add_gate request st =
      (Raise (http500 "Failed to add gate: " (HTTPException 400 detail)), st) in
  (kind_of (GateRequest.gate_type request) = None ->
   fails_with "Invalid gate type")
  /\ (forall k, kind_of (GateRequest.gate_type request) = Some k ->
        k <> GateKind.Measure ->
        index_ok target n = false ->
        fails_with "Invalid target qubit")
  /\ (forall k, kind_of (GateRequest.gate_type request) = Some k ->
        k = GateKind.CX \/ k = GateKind.CZ ->
        index_ok target n = true ->
        index_ok control n = false ->
        fails_with "Invalid control qubit")
  /\ (forall k, kind_of (GateRequest.gate_type request) = Some k ->
        k = GateKind.CX \/ k = GateKind.CZ ->
        index_ok target n = true ->
        index_ok control n = true ->
        control = target ->
        fails_with "Control and target qubits must be different").
Proof.
  destruct request as [gate_type target control n].
  cbn [GateRequest.gate_type GateRequest.target_qubit
    GateRequest.control_qubit GateRequest.qubits].
  intros Hc Hq. cbn zeta. subst n.
  assert (Hrun : forall d,
    (if negb (str_in gate_type supported_gate_types) then Some "Invalid gate type"
     else if negb (gate_type =? "Measure")%string then
       if missing_or_out_of_range target (qubits st) then Some "Invalid target qubit"
       else if str_in gate_type ["CX (CNOT)"; "CZ (Controlled-Z)"] then
         if missing_or_out_of_range control (qubits st) then Some "Invalid control qubit"
         else if field_eqb control target
              then Some "Control and target qubits must be different"
              else None
       else None
     else None) = Some d ->
    add_gate (GateRequest.Build gate_type target control (qubits st)) st =
      (Raise (http500 "Failed to add gate: " (HTTPException 400 d)), st)).
  { intros d.
    unfold add_gate, add_gate_body. unfold_py. unfold needs_new_circuit.
    cbn [GateRequest.gate_type GateRequest.target_qubit
      GateRequest.control_qubit GateRequest.qubits].
    rewrite Hc, Z.eqb_refl. cbn [orb negb].
    destruct (negb (str_in gate_type supported_gate_types));
      [intros [= <-]; reflexivity|].
    destruct (negb (gate_type =? "Measure")%string); [|discriminate].
    destruct (missing_or_out_of_range target (qubits st));
      [intros [= <-]; reflexivity|].
    destruct (str_in gate_type ["CX (CNOT)"; "CZ (Controlled-Z)"]); [|discriminate].
    destruct (missing_or_out_of_range control (qubits st));
      [intros [= <-]; reflexivity|].
    destruct (field_eqb control target); [intros [= <-]; reflexivity | discriminate]. }
  rewrite supported_iff_kind, !missing_or_out_of_range_spec in Hrun.
  split; [|split; [|split]].
  - intros Hk. apply Hrun. now rewrite Hk.
  - intros k Hk Hm Ht. apply Hrun. rewrite Hk, Ht.
    apply kind_of_label in Hk. subst gate_type. destruct k; try reflexivity.
    now contradiction Hm.
  - intros k Hk Hcx Ht Hctl. apply Hrun. rewrite Hk, Ht, Hctl.
    apply kind_of_label in Hk. subst gate_type.
    destruct Hcx as [-> | ->]; reflexivity.
  - intros k Hk Hcx Ht Hctl Heq. apply Hrun. rewrite Hk, Ht, Hctl.
    assert (He : field_eqb control target = true).
    { subst control. destruct target; [apply Z.eqb_refl | reflexivity]. }
    rewrite He.
    apply kind_of_label in Hk. subst gate_type.
    destruct Hcx as [-> | ->]; reflexivity.
Qed.

(** X8.  For H and X the field [control_qubit] plays no part: requests that
    differ only in it have the same result and leave the same session, and a
    control that is out of range, or equal to the target, makes no request
    invalid. *)
Theorem add_gate_single_qubit_ignores_control (target control control' : option Z)
    (n : Z) (st : circuit_state) :
  (add_gate (GateRequest.Build "H (Hadamard)" target control n) st =
     add_gate (GateRequest.Build "H (Hadamard)" target control' n) st
   /\ invalid_gate_request (GateRequest.Build "H (Hadamard)" target control n) =
        negb (index_ok target n))
  /\ (add_gate (GateRequest.Build "X (Pauli-X)" target control n) st =
        add_gate (GateRequest.Build "X (Pauli-X)" target control' n) st
      /\ invalid_gate_request (GateRequest.Build "X (Pauli-X)" target control n) =
           negb (index_ok target n)).
Proof. repeat split. Qed.

(** X9.  A request for another size than the stored one (or on a session
    without circuit) starts over: the library building the new circuit, a
    valid gate is applied to that new circuit and the stored sequence is the
    one new tuple; what was stored before is discarded without notice. *)
Theorem add_gate_resize_starts_over (request : GateRequest.t) (st : circuit_state)
    (k : GateKind.t) (c c1 : QCirc) (img : string) :
  circuit st = None \/ qubits st <> GateRequest.qubits request ->
  QuantumCircuit (GateRequest.qubits request) (Some (GateRequest.qubits request)) = Ret c ->
  kind_of (GateRequest.gate_type request) = Some k ->
  invalid_gate_request request = false ->
  gate_call k (GateRequest.target_qubit request) (GateRequest.control_qubit request)
    (GateRequest.qubits request) c = Ret c1 ->
  circuit_to_base64 (OCircuit c1) false = Ret img ->
  add_gate request st =
    (Ret {| Response.gates :=
              [gate_tuple k (GateRequest.target_qubit request)
                 (GateRequest.control_qubit request)];
            Response.circuit_image := Some img |},
     {| circuit := Some c1;
        gates :=
          [gate_tuple k (GateRequest.target_qubit request)
             (GateRequest.control_qubit request)];
        qubits := GateRequest.qubits request |}).
Proof.
  intros Hstale Hctor Hk Hinv Hcall Hi.
  apply needs_new_circuit_true in Hstale.
  rewrite (add_gate_replaced request st c Hstale Hctor).
  rewrite (add_gate_valid_in_place request
             {| circuit := Some c; gates := []; qubits := GateRequest.qubits request |}
             k c eq_refl eq_refl Hk Hinv).
  rewrite Hcall. cbn zeta. rewrite Hi. reflexivity.
Qed.

(** X10.  No handler lets an exception out as it was raised: whatever
    [reset_circuit], [load_example] or [add_gate] raise is an [HTTPException]
    of status 500 whose detail is the handler's prefix followed by [str] of
    the exception its body raised; the status-400 exceptions of the checks
    never reach the caller with their status. *)
Theorem handlers_raise_status_500 (st : circuit_state) (e : Exc) :
  (forall qubits,
     fst (reset_circuit qubits st) = Raise e ->
     exists e0, fst (reset_circuit_body qubits st) = Raise e0
       /\ e = HTTPException 500 ("Failed to reset circuit: " ++ str_exc e0)%string)
  /\ (forall example qubits,
        fst (load_example example qubits st) = Raise e ->
        exists e0, fst (load_example_body example qubits st) = Raise e0
          /\ e = HTTPException 500 ("Failed to load example: " ++ str_exc e0)%string)
  /\ (forall request,
        fst (add_gate request st) = Raise e ->
        exists e0, fst (add_gate_body request st) = Raise e0
          /\ e = HTTPException 500 ("Failed to add gate: " ++ str_exc e0)%string).
Proof.
  split; [|split].
  - intros qubits He. now apply try_except_wraps in He.
  - intros example qubits He. now apply try_except_wraps in He.
  - intros request He. now apply try_except_wraps in He.
Qed.

End AddGateChecks.

(** ** Sessions: what every handler keeps *)

(** Case analysis on every test and library result a handler meets. *)
Ltac split_cases :=
  repeat (cbn [fst snd circuit gates qubits] in *;
    match goal with
    | |- context [match ?x with _ => _ end] =>
        lazymatch x with
        | context [match _ with _ => _ end] => fail
        | _ => destruct x eqn:?
        end
    end).

Section SessionProperties.

Context {lib : Qiskit}.

Lemma reset_circuit_keeps_circuit (n : Z) (st : circuit_state) :
  circuit (snd (reset_circuit n st)) = None ->
  circuit st = None /\ gates (snd (reset_circuit n st)) = gates st.
Proof.
  unfold reset_circuit, reset_circuit_body. unfold_py.
  split_cases; cbn; intros; try discriminate; split; congruence.
Qed.

Lemma load_example_keeps_circuit (example : string) (n : Z) (st : circuit_state) :
  circuit (snd (load_example example n st)) = None ->
  circuit st = None /\ gates (snd (load_example example n st)) = gates st.
Proof.
  unfold load_example, load_example_body. unfold_py. unfold circuit_obj.
  split_cases; cbn; intros; try discriminate; split; congruence.
Qed.

Lemma add_gate_keeps_circuit (request : GateRequest.t) (st : circuit_state) :
  circuit (snd (add_gate request st)) = None ->
  circuit st = None /\ gates (snd (add_gate request st)) = gates st.
Proof.
  destruct request as [gate_type target control n].
  unfold add_gate, add_gate_body. unfold_py. unfold needs_new_circuit, circuit_obj.
  cbn [GateRequest.gate_type GateRequest.target_qubit
    GateRequest.control_qubit GateRequest.qubits].
  split_cases; cbn; intros; try discriminate; split; congruence.
Qed.

Lemma simulate_circuit_keeps_circuit (shots : Z) (st : circuit_state) :
  circuit (snd (simulate_circuit shots st)) = None ->
  circuit st = None /\ gates (snd (simulate_circuit shots st)) = gates st.
Proof.
  unfold simulate_circuit, simulate_circuit_body, add_measurement_if_absent,
    run_and_render. unfold_py. unfold circuit_obj.
  split_cases; cbn; intros; try discriminate; split; congruence.
Qed.

Lemma serve_keeps_circuit (r : route) (st : circuit_state) :
  circuit (serve r st) = None ->
  circuit st = None /\ gates (serve r st) = gates st.
Proof.
  destruct r; cbn [serve].
  - apply reset_circuit_keeps_circuit.
  - apply load_example_keeps_circuit.
  - apply add_gate_keeps_circuit.
  - apply simulate_circuit_keeps_circuit.
Qed.

Lemma serve_all_app (rs rs' : list route) (st : circuit_state) :
  serve_all (rs ++ rs') st = serve_all rs' (serve_all rs st).
Proof.
  revert st. induction rs as [|r rs IH]; intros st; cbn; [reflexivity | apply IH].
Qed.

(** X11.  No handler ever drops the stored circuit, and gates are only stored
    together with a circuit: when the session holds no circuit after a series
    of requests to the four routes, it held none before and its gate sequence
    is the one of before; and a session that holds a circuit holds one after
    every further series of requests.  From the initial dictionary, then, no
    circuit means no gates. *)
Theorem circuit_never_dropped (rs rs' : list route) (st : circuit_state) :
  (circuit (serve_all rs st) = None ->
   circuit st = None /\ gates (serve_all rs st) = gates st)
  /\ (circuit (serve_all rs st) <> None ->
      circuit (serve_all (rs ++ rs') st) <> None)
  /\ (circuit (serve_all rs initial_state) = None ->
      gates (serve_all rs initial_state) = []).
Proof.
  assert (Hgen : forall l s, circuit (serve_all l s) = None ->
                             circuit s = None /\ gates (serve_all l s) = gates s).
  { induction l as [|r l IH]; intros s; cbn [serve_all].
    - intros Hnone. now split.
    - intros Hnone. destruct (IH _ Hnone) as [Hc Hg].
      destruct (serve_keeps_circuit r s Hc) as [Hc0 Hg0].
      split; [assumption | congruence]. }
  split; [|split].
  - apply Hgen.
  - intros Hsome Hnone. rewrite serve_all_app in Hnone.
    apply Hgen in Hnone. now destruct Hnone.
  - intros Hnone. now destruct (Hgen rs initial_state Hnone).
Qed.

(** X12.  [simulate_circuit] never changes the stored qubit count and never
    removes or reorders a stored gate: whatever the shot count, the session
    and the library do, the stored sequence after the call is the one of
    before, or, when that held no Measure, the one of before with the one
    Measure tuple at its end. *)
Theorem simulate_circuit_frame (shots : Z) (st : circuit_state) :
  qubits (snd (simulate_circuit shots st)) = qubits st
  /\ (gates (snd (simulate_circuit shots st)) = gates st
      \/ (has_measure (gates st) = false
          /\ gates (snd (simulate_circuit shots st)) = gates st ++ [measure_all])).
Proof.
  destruct (has_measure (gates st)) eqn:Hm.
  { rewrite (simulate_state_with_measure shots st Hm). auto. }
  destruct (Z_le_dec 100 shots) as [Hlo|Hlo];
    [destruct (Z_le_dec shots 10000) as [Hhi|Hhi]|];
    try (rewrite simulate_bad_shots by lia; auto).
  destruct (circuit st) as [c|] eqn:Hc;
    [|rewrite simulate_no_circuit by (auto; lia); auto].
  destruct (qc_measure c (PList (py_range (qubits st)))
              (PList (py_range (qubits st)))) as [c'|e] eqn:Hq.
  - rewrite (simulate_state_without_measure shots st c c') by (auto; lia).
    cbn. auto.
  - rewrite (simulate_past_checks shots st c) by (auto; lia).
    rewrite try_except_state.
    rewrite (bind_fail _ _ _ _ _ (add_measurement_raises st c e Hm Hc Hq)).
    auto.
Qed.

(** What [add_gate] keeps on a session that needs no new circuit. *)
Lemma add_gate_in_place_gates (request : GateRequest.t) (st : circuit_state) :
  needs_new_circuit st request = false ->
  qubits (snd (add_gate request st)) = qubits st
  /\ circuit (snd (add_gate request st)) <> None
  /\ exists suffix,
       gates (snd (add_gate request st)) = gates st ++ suffix
       /\ (List.length suffix <= 1)%nat.
Proof.
  intros Hnew.
  assert (Hc : exists c0, circuit st = Some c0)
    by (now apply needs_new_circuit_false in Hnew).
  destruct Hc as [c0 Hc].
  destruct request as [gate_type target control n].
  unfold add_gate, add_gate_body. unfold_py. unfold circuit_obj.
  cbn [GateRequest.gate_type GateRequest.target_qubit
    GateRequest.control_qubit GateRequest.qubits].
  rewrite Hnew.
  split_cases; cbn; (split; [reflexivity|]); (split; [congruence|]);
    first [ exists []; split; [now rewrite app_nil_r | cbn; lia]
          | eexists [_]; split; [reflexivity | cbn; lia] ].
Qed.

(** X13.  On a session whose circuit has the requested size, [add_gate]
    never removes or reorders a stored gate and never changes the qubit
    count: whatever the request and whatever the library does, the stored
    sequence after the call is the one of before followed by at most one
    tuple. *)
Theorem add_gate_in_place_frame (request : GateRequest.t) (st : circuit_state)
    (c0 : QCirc) :
  circuit st = Some c0 ->
  qubits st = GateRequest.qubits request ->
  qubits (snd (add_gate request st)) = qubits st
  /\ circuit (snd (add_gate request st)) <> None
  /\ exists suffix,
       gates (snd (add_gate request st)) = gates st ++ suffix
       /\ (List.length suffix <= 1)%nat.
Proof.
  intros Hc Hq. apply add_gate_in_place_gates.
  apply needs_new_circuit_false. split; [now exists c0 | assumption].
Qed.

(** X14.  A Measure, once stored, stays the only one, wherever it ends up:
    after a gate request of the stored size on a session that holds a
    Measure, the session still holds one, so [simulate_circuit] appends none
    and leaves the session as it is; the tuple of a gate accepted after a
    simulation thus stands behind the Measure, at the end of the sequence
    that is simulated next. *)
Theorem gate_after_measure (request : GateRequest.t) (st : circuit_state)
    (c0 : QCirc) :
  has_measure (gates st) = true ->
  circuit st = Some c0 ->
  qubits st = GateRequest.qubits request ->
  has_measure (gates (snd (add_gate request st))) = true
  /\ (forall shots,
        snd (simulate_circuit shots (snd (add_gate request st))) =
          snd (add_gate request st))
  /\ (forall k c1 shots,
        kind_of (GateRequest.gate_type request) = Some k ->
        invalid_gate_request request = false ->
        gate_call k (GateRequest.target_qubit request)
          (GateRequest.control_qubit request) (GateRequest.qubits request) c0 = Ret c1 ->
        gates (snd (simulate_circuit shots (snd (add_gate request st)))) =
          gates st ++ [gate_tuple k (GateRequest.target_qubit request)
                         (GateRequest.control_qubit request)]).
Proof.
  intros Hm Hc Hq.
  assert (Hnew : needs_new_circuit st request = false).
  { apply needs_new_circuit_false. split; [now exists c0 | assumption]. }
  destruct (add_gate_in_place_gates request st Hnew) as [_ [_ [suffix [Hg _]]]].
  assert (Hm' : has_measure (gates (snd (add_gate request st))) = true).
  { rewrite Hg, has_measure_app, Hm. reflexivity. }
  split; [assumption|]. split.
  - intros shots. now apply simulate_state_with_measure.
  - intros k c1 shots Hk Hinv Hcall.
    rewrite (simulate_state_with_measure shots _ Hm').
    rewrite (add_gate_valid_in_place request st k c0 Hc Hq Hk Hinv), Hcall.
    cbn zeta. destruct (circuit_to_base64 (OCircuit c1) false); reflexivity.
Qed.

(** X15.  An answer lists what is stored: when [reset_circuit],
    [load_example] or [add_gate] answer, the gate list of the answer is the
    stored gate sequence as the call left it, and a circuit is stored;
    [reset_circuit] answers with no gates and no image, the other two with
    an image. *)
Theorem answers_list_stored_gates (st st' : circuit_state) (a : Response.t) :
  (forall qubits,
     reset_circuit qubits st = (Ret a, st') ->
     Response.gates a = gates st' /\ gates st' = []
     /\ Response.circuit_image a = None /\ circuit st' <> None)
  /\ (forall example qubits,
        load_example example qubits st = (Ret a, st') ->
        Response.gates a = gates st' /\ circuit st' <> None
        /\ exists img, Response.circuit_image a = Some img)
  /\ (forall request,
        add_gate request st = (Ret a, st') ->
        Response.gates a = gates st' /\ circuit st' <> None
        /\ exists img, Response.circuit_image a = Some img).
Proof.
  split; [|split].
  - intros n. unfold reset_circuit, reset_circuit_body. unfold_py.
    split_cases; intros Heq; inversion Heq; subst; cbn.
    repeat split; congruence.
  - intros example n.
    unfold load_example, load_example_body. unfold_py. unfold circuit_obj.
    split_cases; intros Heq; inversion Heq; subst; cbn;
      (split; [reflexivity|]); (split; [congruence|]); eauto.
  - intros [gate_type target control n].
    unfold add_gate, add_gate_body. unfold_py. unfold needs_new_circuit, circuit_obj.
    cbn [GateRequest.gate_type GateRequest.target_qubit
      GateRequest.control_qubit GateRequest.qubits].
    split_cases; intros Heq; inversion Heq; subst; cbn;
      (split; [reflexivity|]); (split; [|eauto]);
      try congruence;
      match goal with
      | Hb : true || _ = false |- _ => cbn in Hb; discriminate Hb
      end.
Qed.

(** X16.  The stored sequence lists the accepted gates in the order of the
    requests.  On a session with a circuit, a series of [add_gate] requests
    of the stored size, the gate methods returning on the calls the series
    makes, leaves the sequence of before followed by one tuple for each
    request that passes validation, in request order; the requests that fail
    validation leave no trace, and neither does a failure of the
    rendering. *)
Theorem accepted_gates_in_order (requests : list GateRequest.t)
    (st : circuit_state) (c0 : QCirc) :
  circuit st = Some c0 ->
  Forall (fun request => GateRequest.qubits request = qubits st) requests ->
  gate_calls_succeed requests c0 ->
  gates (serve_all (map PostAddGate requests) st) = gates st ++ accepted_tuples requests
  /\ qubits (serve_all (map PostAddGate requests) st) = qubits st.
Proof.
  revert st c0.
  induction requests as [|request rest IH]; intros st c0 Hc Hall Hlib;
    cbn [map serve_all].
  - cbn. now rewrite app_nil_r.
  - inversion Hall as [|? ? Hq Hrest]; subst.
    assert (Hnew : needs_new_circuit st request = false).
    { apply needs_new_circuit_false. split; [now exists c0 | now symmetry]. }
    cbn [serve accepted_tuples]. cbn [gate_calls_succeed] in Hlib.
    destruct (invalid_gate_request request) eqn:Hinv.
    + destruct (add_gate_invalid_in_place request st Hinv Hnew) as [d [_ Hrun]].
      rewrite Hrun. cbn [snd].
      destruct (kind_of (GateRequest.gate_type request)); now apply IH with (c0 := c0).
    + destruct (kind_of (GateRequest.gate_type request)) as [k|] eqn:Hk.
      2:{ unfold invalid_gate_request in Hinv. rewrite Hk in Hinv. discriminate. }
      destruct Hlib as [c1 [Hcall Hlib]].
      rewrite (add_gate_valid_in_place request st k c0 Hc (eq_sym Hq) Hk Hinv), Hcall.
      cbn zeta.
      set (st1 := {| circuit := Some c1;
                     gates := gates st ++
                       [gate_tuple k (GateRequest.target_qubit request)
                          (GateRequest.control_qubit request)];
                     qubits := qubits st |}).
      destruct (IH st1 c1 eq_refl Hrest Hlib) as [Hg Hn].
      destruct (circuit_to_base64 (OCircuit c1) false); cbn [snd]; fold st1;
        rewrite Hg, Hn; cbn [st1 gates qubits]; rewrite <- app_assoc; now split.
Qed.

End SessionProperties.

(** * Concrete runs on the reference implementation *)

Section Runs.

Import Reference Examples.

Local Existing Instance Reference.lib.

(** The example states are what the handlers produce. *)
Lemma examples_reached :
  snd (reset_circuit 2 initial_state) = fresh2
  /\ snd (add_gate h0_on_2 initial_state) = one_h
  /\ snd (simulate_circuit 100 one_h) = one_h_measured.
Proof. repeat split. Qed.

(** C1, counterexample.  The session right after [reset_circuit(2)] has an
    empty gate sequence, and [simulate_circuit(100)] on it does not fail: it
    returns both images and stores the implicit Measure. *)
Lemma simulate_fresh_circuit_succeeds :
  gates fresh2 = []
  /\ simulate_circuit 100 fresh2 =
       (Ret {| SimulateResponse.circuit_image := "PNG(circuit)";
               SimulateResponse.histogram_image := "PNG(histogram)" |},
        {| circuit := Some {| num_qubits := 2; num_clbits := 2;
                              data := [("measure", [PList [0; 1]; PList [0; 1]])] |};
           gates := [measure_all];
           qubits := 2 |}).
Proof. split; reflexivity. Qed.

(** C1, witness: the amended statement at the session after a reset. *)
Lemma simulate_empty_circuit_witness :
  (gates fresh2 = [] /\ 100 <= 100 <= 10000)
  /\ simulate_circuit 100 fresh2 =
       (Ret {| SimulateResponse.circuit_image := "PNG(circuit)";
               SimulateResponse.histogram_image := "PNG(histogram)" |},
        {| circuit := Some {| num_qubits := 2; num_clbits := 2;
                              data := [("measure", [PList [0; 1]; PList [0; 1]])] |};
           gates := [measure_all];
           qubits := 2 |}).
Proof.
  split; [split; [reflexivity | lia]|].
  refine (proj2 (simulate_empty_circuit 100 fresh2 eq_refl _) _ _ _ _ _
            eq_refl eq_refl eq_refl eq_refl eq_refl).
  lia.
Defined.

(** C2, counterexample.  On a 2-qubit session holding one Hadamard, the
    request H on qubit 5 of a 3-qubit register is invalid and fails, yet the
    stored gate sequence is no longer the one of before: the circuit was
    replaced by an empty 3-qubit one before the request was validated. *)
Lemma invalid_gate_discards_stored_gates :
  invalid_gate_request h5_on_3 = true
  /\ gates one_h = [("H", [PInt 0])]
  /\ add_gate h5_on_3 one_h =
       (Raise (HTTPException 500 "Failed to add gate: 400: Invalid target qubit"),
        {| circuit := Some {| num_qubits := 3; num_clbits := 3; data := [] |};
           gates := [];
           qubits := 3 |})
  /\ gates (snd (add_gate h5_on_3 one_h)) <> gates one_h.
Proof. repeat split. discriminate. Qed.

(** C2, witness: an invalid request of the stored size leaves the session;
    an invalid request for size -1 fails too and appends nothing. *)
Lemma add_gate_invalid_request_witness :
  (invalid_gate_request h2_on_2 = true
   /\ exists d, In d invalid_gate_details
        /\ add_gate h2_on_2 one_h =
             (Raise (http500 "Failed to add gate: " (HTTPException 400 d)), one_h))
  /\ (invalid_gate_request h0_on_minus1 = true
      /\ (gates (snd (add_gate h0_on_minus1 one_h)) = gates one_h
          \/ gates (snd (add_gate h0_on_minus1 one_h)) = [])).
Proof.
  split; (split; [reflexivity|]).
  - exact (proj1 (proj2 (add_gate_invalid_request h2_on_2 one_h eq_refl))
             _ eq_refl eq_refl).
  - exact (proj1 (proj2 (proj1 (add_gate_invalid_request h0_on_minus1 one_h eq_refl)))).
Defined.

(** C3, the failing run.  [add_gate] with [qubits = 7] on the initial session
    builds and stores a 7-qubit circuit and applies the gate, while
    [reset_circuit(7)] and [load_example(..., 7)] refuse that size. *)
Lemma add_gate_builds_seven_qubit_register :
  add_gate h0_on_7 initial_state =
    (Ret {| Response.gates := [("H", [PInt 0])];
            Response.circuit_image := Some "PNG(circuit)" |},
     {| circuit := Some {| num_qubits := 7; num_clbits := 7; data := [("h", [PInt 0])] |};
        gates := [("H", [PInt 0])];
        qubits := 7 |})
  /\ reset_circuit 7 initial_state =
       (Raise (HTTPException 500
                 "Failed to reset circuit: 400: Qubits must be between 1 and 5"),
        initial_state)
  /\ load_example "Bell State (Entanglement)" 7 initial_state =
       (Raise (HTTPException 500
                 "Failed to load example: 400: Qubits must be between 1 and 5"),
        initial_state).
Proof. repeat split. Qed.

(** C4, counterexample.  [simulate_circuit(100)] on a session whose gate
    sequence is one Hadamard leaves a stored sequence with the Measure
    appended, and a stored circuit with the measurement applied. *)
Lemma simulate_changes_stored_sequence :
  gates one_h = [("H", [PInt 0])]
  /\ gates (snd (simulate_circuit 100 one_h)) = [("H", [PInt 0]); ("Measure", [PStr "All"])]
  /\ gates (snd (simulate_circuit 100 one_h)) <> gates one_h
  /\ circuit (snd (simulate_circuit 100 one_h)) <> circuit one_h.
Proof. repeat split; discriminate. Qed.

(** C4, witness: both halves of the amended statement, at [one_h] and at the
    session the first call leaves. *)
Lemma simulate_stored_sequence_witness :
  snd (simulate_circuit 100 one_h) = one_h_measured
  /\ snd (simulate_circuit 100 one_h_measured) = one_h_measured.
Proof.
  split.
  - refine (proj2 (proj2 (proj2 (simulate_stored_sequence 100 one_h)))
              _ _ _ eq_refl eq_refl eq_refl).
    lia.
  - exact (proj1 (simulate_stored_sequence 100 one_h_measured) eq_refl).
Defined.

(** C5, counterexample.  With [shots = 0] the shot-count check raises the
    status-400 exception; what reaches the caller is another exception, of
    status 500 and with another detail. *)
Lemma shot_count_error_is_rewrapped :
  fst (simulate_circuit_body 0 initial_state) =
    Raise (HTTPException 400 "Shots must be between 100 and 10000")
  /\ fst (simulate_circuit 0 initial_state) =
       Raise (HTTPException 500
                "Failed to simulate circuit: 400: Shots must be between 100 and 10000")
  /\ fst (simulate_circuit 0 initial_state) <> fst (simulate_circuit_body 0 initial_state).
Proof. repeat split. discriminate. Qed.

(** C5, witness: the missing-circuit error, re-raised with status 500. *)
Lemma simulate_errors_are_rewrapped_witness :
  (100 <= 100 <= 10000 /\ circuit initial_state = None)
  /\ fst (simulate_circuit 100 initial_state) =
       Raise (HTTPException 500 "Failed to simulate circuit: 400: No circuit defined").
Proof.
  split; [split; [lia | reflexivity]|].
  refine (proj1 (proj2 (proj2 (simulate_errors_are_rewrapped 100 initial_state))) _ eq_refl).
  lia.
Defined.

(** C6, witness: 0 shots and 100000 shots are refused, 100 shots pass. *)
Lemma simulate_shot_count_check_witness :
  simulate_circuit 0 one_h =
    (Raise (HTTPException 500
              "Failed to simulate circuit: 400: Shots must be between 100 and 10000"),
     one_h)
  /\ simulate_circuit 100000 one_h =
       (Raise (HTTPException 500
                 "Failed to simulate circuit: 400: Shots must be between 100 and 10000"),
        one_h)
  /\ simulate_circuit 100 one_h =
       try_except (bind add_measurement_if_absent (fun _ => run_and_render 100))
         (reraise_500 "Failed to simulate circuit: ") one_h.
Proof.
  split; [|split].
  - refine (proj1 (proj2 (simulate_shot_count_check 0 one_h)) _). lia.
  - refine (proj1 (simulate_shot_count_check 100000 one_h) _). lia.
  - refine (proj2 (proj2 (simulate_shot_count_check 100 one_h)) _). lia.
Defined.

(** C7, witness: the implicit Measure on [one_h]; none on [one_h_measured]. *)
Lemma simulate_implicit_measure_witness :
  gates (snd (simulate_circuit 100 one_h)) = [("H", [PInt 0]); measure_all]
  /\ measure_count (gates (snd (simulate_circuit 100 one_h))) = 1%nat
  /\ snd (simulate_circuit 100 one_h_measured) = one_h_measured.
Proof.
  assert (Hs : 100 <= 100 <= 10000) by lia.
  split; [|split].
  - exact (proj1 (proj2 (proj1 (simulate_implicit_measure 100 one_h _ Hs eq_refl)
                           eq_refl _ eq_refl))).
  - exact (proj1 (proj2 (proj2 (proj1 (simulate_implicit_measure 100 one_h _ Hs eq_refl)
                                  eq_refl _ eq_refl)))).
  - exact (proj2 (proj2 (simulate_implicit_measure 100 one_h_measured _ Hs eq_refl)
                    eq_refl)).
Defined.

(** C7, counterexample.  On the session left by a simulation, a Hadamard is
    accepted and stored behind the Measure.  The next [simulate_circuit(100)]
    finds a Measure, adds none and succeeds: the sequence it evaluates ends
    with the Hadamard, and the last operation of the circuit it runs is that
    Hadamard, not a measurement. *)
Lemma simulate_sequence_ends_with_gate :
  gates (snd (add_gate h0_on_2 one_h_measured)) =
    [("H", [PInt 0]); ("Measure", [PStr "All"]); ("H", [PInt 0])]
  /\ circuit (snd (add_gate h0_on_2 one_h_measured)) =
       Some {| num_qubits := 2; num_clbits := 2;
               data := [("h", [PInt 0]); ("measure", [PList [0; 1]; PList [0; 1]]);
                        ("h", [PInt 0])] |}
  /\ simulate_circuit 100 (snd (add_gate h0_on_2 one_h_measured)) =
       (Ret {| SimulateResponse.circuit_image := "PNG(circuit)";
               SimulateResponse.histogram_image := "PNG(histogram)" |},
        snd (add_gate h0_on_2 one_h_measured))
  /\ last (gates (snd (simulate_circuit 100 (snd (add_gate h0_on_2 one_h_measured)))))
          measure_all = ("H", [PInt 0])
  /\ ("H", [PInt 0]) <> measure_all.
Proof. repeat split. discriminate. Qed.

(** C8, the failing run.  On a 2-qubit session holding one Hadamard, a
    request with [qubits = -1] fails in the circuit constructor after line
    115 has stored the new count: the session keeps the old circuit and the
    old gates under the qubit count -1. *)
Lemma add_gate_negative_size_keeps_old_circuit :
  add_gate h0_on_minus1 one_h =
    (Raise (HTTPException 500 "Failed to add gate: Register size must be non-negative"),
     {| circuit := Some {| num_qubits := 2; num_clbits := 2; data := [("h", [PInt 0])] |};
        gates := [("H", [PInt 0])];
        qubits := -1 |})
  /\ snd (add_gate h0_on_2 initial_state) = one_h.
Proof. split; reflexivity. Qed.

(** C9, witness: a Measure request with absurd qubit fields succeeds. *)
Lemma add_gate_measure_ignores_qubit_fields_witness :
  add_gate measure_junk one_h =
    add_gate (GateRequest.Build "Measure" None None 2) one_h
  /\ add_gate measure_junk one_h =
       (Ret {| Response.gates := [("H", [PInt 0]); measure_all];
               Response.circuit_image := Some "PNG(circuit)" |},
        one_h_measured).
Proof.
  split.
  - exact (proj1 (add_gate_measure_ignores_qubit_fields 2 (Some 9) (Some 9) None None one_h)).
  - exact (proj1 (proj2 (proj2
             (add_gate_measure_ignores_qubit_fields 2 (Some 9) (Some 9) None None one_h)))
             _ _ _ eq_refl eq_refl eq_refl eq_refl).
Defined.

(** C10, witness: after the first successful call on [one_h], three more
    calls leave the gate sequence as it is. *)
Lemma simulate_measure_appended_once_witness :
  simulate_circuit 100 one_h =
    (Ret {| SimulateResponse.circuit_image := "PNG(circuit)";
            SimulateResponse.histogram_image := "PNG(histogram)" |}, one_h_measured)
  /\ has_measure (gates one_h_measured) = true
  /\ gates (simulate_repeatedly [100; 5000; 0] one_h_measured) = gates one_h_measured.
Proof.
  split; [reflexivity|].
  split.
  - exact (proj1 (simulate_measure_appended_once 100 one_h one_h_measured _ eq_refl)).
  - exact (proj1 (proj2 (proj2
             (simulate_measure_appended_once 100 one_h one_h_measured _ eq_refl)))
             [100; 5000; 0]).
Defined.

End Runs.

(** * Further runs on the reference implementation *)

Section MoreRuns.

Import Reference Examples MoreExamples.

Local Existing Instance Reference.lib.

(** The further example states are what the handlers produce. *)
Lemma more_examples_reached :
  snd (load_example "Bell State (Entanglement)" 2 initial_state) = bell2
  /\ snd (reset_circuit 3 one_h) = fresh3.
Proof. split; reflexivity. Qed.

(** X1, witness: size 9 is refused, size 3 replaces a session with gates. *)
Lemma reset_circuit_contract_witness :
  reset_circuit 9 one_h =
    (Raise (HTTPException 500
              "Failed to reset circuit: 400: Qubits must be between 1 and 5"), one_h)
  /\ reset_circuit 3 one_h =
       (Ret {| Response.gates := []; Response.circuit_image := None |}, fresh3).
Proof.
  split.
  - refine (proj1 (reset_circuit_contract 9 one_h) _). lia.
  - refine (proj1 (proj2 (reset_circuit_contract 3 one_h)) _ _ eq_refl). lia.
Defined.

(** X2, witness: the Bell example on 2 qubits, over a session with a gate. *)
Lemma load_example_bell_witness :
  load_example "Bell State (Entanglement)" 2 one_h =
    (Ret {| Response.gates := [("H", [PInt 0]); ("CX", [PInt 0; PInt 1])];
            Response.circuit_image := Some "PNG(circuit)" |}, bell2).
Proof.
  refine (load_example_bell 2 one_h _ _ _ _ _ eq_refl eq_refl eq_refl eq_refl). lia.
Defined.

(** X3, witness: the Grover example, over a session with a gate. *)
Lemma load_example_grover_witness :
  gates (snd (load_example "Grover's Algorithm (2-Qubit Search)" 2 one_h)) =
    [("H", [PList [0; 1]]); ("Grover Operator", [PList [0; 1]])].
Proof.
  exact (f_equal (fun r => gates (snd r))
           (load_example_grover one_h _ _ _ _ _ _ _
              eq_refl eq_refl eq_refl eq_refl eq_refl eq_refl eq_refl)).
Defined.

(** X4, witness: the Bell example on 1 qubit and an unknown example fail and
    leave an empty 1-qubit circuit where a Hadamard was stored. *)
Lemma load_example_failure_resets_session_witness :
  load_example "Bell State (Entanglement)" 1 one_h =
    (Raise (HTTPException 500
              "Failed to load example: 400: Bell State requires at least 2 qubits"),
     {| circuit := Some {| num_qubits := 1; num_clbits := 1; data := [] |};
        gates := []; qubits := 1 |})
  /\ load_example "Teleportation" 1 one_h =
       (Raise (HTTPException 500 "Failed to load example: 400: Invalid example"),
        {| circuit := Some {| num_qubits := 1; num_clbits := 1; data := [] |};
           gates := []; qubits := 1 |}).
Proof.
  assert (H1 : 1 <= 1 <= 5) by lia.
  split.
  - refine (proj1 (load_example_failure_resets_session
                     "Bell State (Entanglement)" 1 one_h _ H1 eq_refl) eq_refl _).
    lia.
  - refine (proj2 (proj2 (load_example_failure_resets_session
                            "Teleportation" 1 one_h _ H1 eq_refl)) _ _);
      discriminate.
Defined.

(** X5, witness: a valid CNOT after the Hadamard. *)
Lemma add_gate_valid_request_witness :
  invalid_gate_request cx01_on_2 = false
  /\ add_gate cx01_on_2 one_h =
       (Ret {| Response.gates := [("H", [PInt 0]); ("CX", [PInt 0; PInt 1])];
               Response.circuit_image := Some "PNG(circuit)" |}, bell2).
Proof.
  split; [reflexivity|].
  exact (add_gate_valid_request cx01_on_2 one_h GateKind.CX _ _ _
           eq_refl eq_refl eq_refl eq_refl eq_refl eq_refl).
Defined.

(** X6, witness: with a renderer that always fails, the valid CNOT fails and
    is stored all the same. *)
Lemma add_gate_render_failure_keeps_gate_witness :
  add_gate (lib := no_display) cx01_on_2
    (@Build_state no_display
       (Some {| num_qubits := 2; num_clbits := 2; data := [("h", [PInt 0])] |})
       [("H", [PInt 0])] 2) =
    (Raise (HTTPException 500
              "Failed to add gate: 500: Failed to generate image: no display"),
     @Build_state no_display
       (Some {| num_qubits := 2; num_clbits := 2;
                data := [("h", [PInt 0]); ("cx", [PInt 0; PInt 1])] |})
       [("H", [PInt 0]); ("CX", [PInt 0; PInt 1])] 2).
Proof.
  exact (add_gate_render_failure_keeps_gate (lib := no_display) cx01_on_2
           (@Build_state no_display
              (Some {| num_qubits := 2; num_clbits := 2; data := [("h", [PInt 0])] |})
              [("H", [PInt 0])] 2)
           GateKind.CX _ _ _ eq_refl eq_refl eq_refl eq_refl eq_refl eq_refl).
Defined.

(** X7, witness: a CNOT whose target and control are both 7 reports the
    target; an unknown gate type with the same fields reports the type. *)
Lemma add_gate_first_failed_check_witness :
  add_gate cx77_on_2 one_h =
    (Raise (HTTPException 500 "Failed to add gate: 400: Invalid target qubit"), one_h)
  /\ add_gate (GateRequest.Build "T" (Some 7) (Some 7) 2) one_h =
       (Raise (HTTPException 500 "Failed to add gate: 400: Invalid gate type"), one_h).
Proof.
  split.
  - refine (proj1 (proj2 (add_gate_first_failed_check cx77_on_2 one_h _ eq_refl eq_refl))
              GateKind.CX eq_refl _ eq_refl).
    discriminate.
  - exact (proj1 (add_gate_first_failed_check
                    (GateRequest.Build "T" (Some 7) (Some 7) 2) one_h _ eq_refl eq_refl)
             eq_refl).
Defined.

(** X9, witness: a Hadamard for 3 qubits on the 2-qubit Bell session. *)
Lemma add_gate_resize_starts_over_witness :
  add_gate (GateRequest.Build "H (Hadamard)" (Some 2) None 3) bell2 =
    (Ret {| Response.gates := [("H", [PInt 2])];
            Response.circuit_image := Some "PNG(circuit)" |},
     {| circuit := Some {| num_qubits := 3; num_clbits := 3; data := [("h", [PInt 2])] |};
        gates := [("H", [PInt 2])];
        qubits := 3 |}).
Proof.
  refine (add_gate_resize_starts_over
            (GateRequest.Build "H (Hadamard)" (Some 2) None 3) bell2 GateKind.H _ _ _
            _ eq_refl eq_refl eq_refl eq_refl eq_refl).
  right. discriminate.
Defined.

(** X10, witness: the refusal of size 9 reaches the caller with status 500. *)
Lemma handlers_raise_status_500_witness :
  exists e0,
    fst (reset_circuit_body 9 initial_state) = Raise e0
    /\ HTTPException 500 "Failed to reset circuit: 400: Qubits must be between 1 and 5" =
         HTTPException 500 ("Failed to reset circuit: " ++ str e0)%string.
Proof.
  exact (proj1 (handlers_raise_status_500 initial_state
                  (HTTPException 500
                     "Failed to reset circuit: 400: Qubits must be between 1 and 5"))
           9 eq_refl).
Defined.

(** X11, witness: three failing requests on the initial dictionary leave it
    without circuit and without gates. *)
Lemma circuit_never_dropped_witness :
  circuit (serve_all [GetSimulate 100; GetReset 9; PostAddGate h0_on_minus1]
             initial_state) = None
  /\ gates (serve_all [GetSimulate 100; GetReset 9; PostAddGate h0_on_minus1]
              initial_state) = [].
Proof.
  split; [reflexivity|].
  exact (proj2 (proj2 (circuit_never_dropped
                         [GetSimulate 100; GetReset 9; PostAddGate h0_on_minus1] []
                         initial_state))
           eq_refl).
Defined.

(** X13, witness: an invalid and a valid request on the Bell session. *)
Lemma add_gate_in_place_frame_witness :
  (exists suffix,
     gates (snd (add_gate cx77_on_2 bell2)) = gates bell2 ++ suffix
     /\ (List.length suffix <= 1)%nat)
  /\ (exists suffix,
        gates (snd (add_gate h0_on_2 bell2)) = gates bell2 ++ suffix
        /\ (List.length suffix <= 1)%nat).
Proof.
  split.
  - exact (proj2 (proj2 (add_gate_in_place_frame cx77_on_2 bell2 _ eq_refl eq_refl))).
  - exact (proj2 (proj2 (add_gate_in_place_frame h0_on_2 bell2 _ eq_refl eq_refl))).
Defined.

(** X14, witness: a Hadamard added after a simulation stands behind the
    Measure, and the next simulation adds nothing. *)
Lemma gate_after_measure_witness :
  has_measure (gates one_h_measured) = true
  /\ gates (snd (simulate_circuit 100 (snd (add_gate h0_on_2 one_h_measured)))) =
       [("H", [PInt 0]); ("Measure", [PStr "All"]); ("H", [PInt 0])].
Proof.
  split; [reflexivity|].
  exact (proj2 (proj2 (gate_after_measure h0_on_2 one_h_measured _
                         eq_refl eq_refl eq_refl))
           GateKind.H _ 100 eq_refl eq_refl eq_refl).
Defined.

(** X15, witness: the answer to the first gate request. *)
Lemma answers_list_stored_gates_witness :
  Response.gates
    {| Response.gates := [("H", [PInt 0])];
       Response.circuit_image := Some "PNG(circuit)" |} = gates one_h
  /\ circuit one_h <> None
  /\ exists img,
       Response.circuit_image
         {| Response.gates := [("H", [PInt 0])];
            Response.circuit_image := Some "PNG(circuit)" |} = Some img.
Proof.
  exact (proj2 (proj2 (answers_list_stored_gates initial_state one_h
                         {| Response.gates := [("H", [PInt 0])];
                            Response.circuit_image := Some "PNG(circuit)" |}))
           h0_on_2 eq_refl).
Defined.

(** X16, witness: a valid Hadamard, an invalid CNOT and a valid CNOT, in that
    order, on the session after a reset. *)
Lemma accepted_gates_in_order_witness :
  gates (serve_all (map PostAddGate [h0_on_2; cx77_on_2; cx01_on_2]) fresh2) =
    [("H", [PInt 0]); ("CX", [PInt 0; PInt 1])].
Proof.
  refine (proj1 (accepted_gates_in_order [h0_on_2; cx77_on_2; cx01_on_2] fresh2 _
                   eq_refl _ _)).
  - repeat constructor.
  - cbn. eexists. split; [reflexivity|]. eexists. split; [reflexivity | exact I].
Defined.

End MoreRuns.
